(** * Adobe AEM CLI (ktmcp-cli/adobe)

    A shallow embedding of [src/api.js], [src/config.js] and the [config]
    commands of [src/index.js], followed by the properties of the listing
    projection, the error mapping, the credential gate and the password
    masking.

    Conventions of the embedding.
    - A JSON document is a [json]; an object is the list of its own
      properties in the order [Object.entries] enumerates them, each key
      occurring once.  JSON numbers are integers ([Z]); the code only tests
      them for zero and prints them.  A limit is an integer too (the CLI
      passes [parseInt] of its option; [NaN] is outside the model).
    - JavaScript's [undefined] is [None] in [option json].
    - A thrown exception is an [exn]; a computation that may throw is a sum
      [exn + A]; an [async] function that talks to the server is an [M A],
      which also records the requests that were sent.
    - Strings are byte strings (UTF-8). *)

From stdpp Require Import gmap strings list pretty.
From Stdlib Require Import ZArith Lia Ascii.

Local Open Scope string_scope.
Local Set Warnings "-register-all".

(** ** JSON values and the JavaScript operators the source applies to them *)

Inductive json :=
| JNull
| JBool (b : bool)
| JNum (n : Z)
| JStr (s : string)
| JArr (items : list json)
| JObj (props : list (string * json)).

(** What a rejected promise or a [throw] carries.  [Error] is
    [new Error(message)]; [TypeError] is what the engine throws when a
    property of [null] is read; [AxiosError] is a rejected request, with
    [error.response] as [(status, data)] and [error.request] as a flag. *)
Inductive exn :=
| Error (message : string)
| TypeError
| AxiosError (message : string) (response : option (Z * json)) (request : bool).

Definition exn_response (error : exn) : option (Z * json) :=
  match error with AxiosError _ r _ => r | _ => None end.

Definition exn_request (error : exn) : bool :=
  match error with AxiosError _ _ q => q | _ => false end.

(** [typeof value === 'object']: true of objects, arrays and [null]. *)
Definition typeof_object (v : json) : bool :=
  match v with
  | JNull | JArr _ | JObj _ => true
  | JBool _ | JNum _ | JStr _ => false
  end.

(** Truthiness of a defined value, and of a possibly undefined one. *)
Definition truthy_value (v : json) : bool :=
  match v with
  | JNull => false
  | JBool b => b
  | JNum n => negb (n =? 0)%Z
  | JStr s => negb (String.eqb s EmptyString)
  | JArr _ | JObj _ => true
  end.

Definition truthy (o : option json) : bool :=
  match o with Some v => truthy_value v | None => false end.

(** [a || b] where [b] is defined. *)
Definition js_or (a : option json) (b : json) : json :=
  match a with
  | Some v => if truthy_value v then v else b
  | None => b
  end.

(** Own property of an object, by key. *)
Fixpoint own (k : string) (props : list (string * json)) : option json :=
  match props with
  | [] => None
  | (k', v) :: rest => if String.eqb k' k then Some v else own k rest
  end.

(** [v[k]] for [v] other than [null].  The source reads only the names
    [jcr:*], [cq:*], [error], [message]; arrays, strings, numbers and
    booleans have no property of such a name. *)
Definition member (v : json) (k : string) : option json :=
  match v with
  | JObj props => own k props
  | _ => None
  end.

(** [v[k]]: reading a property of [null] throws. *)
Definition get (v : json) (k : string) : exn + option json :=
  match v with
  | JNull => inl TypeError
  | _ => inr (member v k)
  end.

(** [o?.[k]]: [undefined] when [o] is [null] or [undefined]. *)
Definition get_opt (o : option json) (k : string) : option json :=
  match o with
  | None | Some JNull => None
  | Some v => member v k
  end.

(** Keys of array elements and string characters: ["0"], ["1"], ... *)
Definition indexed (items : list json) : list (string * json) :=
  imap (fun i v => (pretty i, v)) items.

Definition chars (s : string) : list json :=
  map (fun c => JStr (String c EmptyString)) (String.list_ascii_of_string s).

(** The own enumerable properties that [{...v}] copies. *)
Definition spread_entries (v : json) : list (string * json) :=
  match v with
  | JObj props => props
  | JArr items => indexed items
  | JStr s => indexed (chars s)
  | JNull | JBool _ | JNum _ => []
  end.

(** [Object.entries(v)]: as the spread, except that [null] throws. *)
Definition Object_entries (v : json) : exn + list (string * json) :=
  match v with
  | JNull => inl TypeError
  | _ => inr (spread_entries v)
  end.

(** [key.startsWith('jcr:') || key === 'rep:policy'] *)
Definition skip_key (key : string) : bool :=
  String.prefix "jcr:" key || String.eqb key "rep:policy".

(** ** Template literals and [JSON.stringify] *)

(** [String(v)], the conversion a template literal applies. *)
Fixpoint to_string (v : json) : string :=
  match v with
  | JNull => "null"
  | JBool true => "true"
  | JBool false => "false"
  | JNum n => pretty n
  | JStr s => s
  | JArr items =>
      String.concat ","
        (map (fun x => match x with JNull => EmptyString | _ => to_string x end) items)
  | JObj _ => "[object Object]"
  end.

Definition dquote : string := String "034"%char EmptyString.
Definition backslash : string := String "092"%char EmptyString.

Definition hex_digit (n : N) : ascii :=
  if (n <? 10)%N then ascii_of_N (48 + n) else ascii_of_N (87 + n).

(** One character of a JSON string literal. *)
Definition escape_char (c : ascii) : string :=
  let n := N_of_ascii c in
  if (n =? 34)%N then backslash ++ dquote
  else if (n =? 92)%N then backslash ++ backslash
  else if (n =? 8)%N then backslash ++ "b"
  else if (n =? 9)%N then backslash ++ "t"
  else if (n =? 10)%N then backslash ++ "n"
  else if (n =? 12)%N then backslash ++ "f"
  else if (n =? 13)%N then backslash ++ "r"
  else if (n <? 32)%N then
    backslash ++ "u00" ++ String (hex_digit (n / 16)) (String (hex_digit (n mod 16)) EmptyString)
  else String c EmptyString.

Definition quote (s : string) : string :=
  dquote ++ String.concat EmptyString (map escape_char (String.list_ascii_of_string s)) ++ dquote.

(** [JSON.stringify(v)] without indentation. *)
Fixpoint JSON_stringify (v : json) : string :=
  match v with
  | JNull => "null"
  | JBool true => "true"
  | JBool false => "false"
  | JNum n => pretty n
  | JStr s => quote s
  | JArr items => "[" ++ String.concat "," (map JSON_stringify items) ++ "]"
  | JObj props =>
      "{" ++ String.concat ","
               (map (fun kv => quote (fst kv) ++ ":" ++ JSON_stringify (snd kv)) props)
          ++ "}"
  end.

(** ** Configuration store ([src/config.js])

    The [conf] store is a persistent dictionary; the CLI writes only string
    values under the keys [username], [password] and [baseUrl]. *)

Definition getConfig (config : gmap string string) (key : string) : option string :=
  config !! key.

Definition setConfig (key value : string) (config : gmap string string) : gmap string string :=
  <[key := value]> config.

(** Truthiness of a string that may be [undefined]. *)
Definition truthy_str (o : option string) : bool :=
  match o with
  | Some s => negb (String.eqb s EmptyString)
  | None => false
  end.

Definition isConfigured (config : gmap string string) : bool :=
  truthy_str (config !! "username") && truthy_str (config !! "password").

Definition getAllConfig (config : gmap string string) : gmap string string := config.

(** [a || b] on strings. *)
Definition str_or (a : option string) (b : string) : string :=
  match a with
  | Some s => if String.eqb s EmptyString then b else s
  | None => b
  end.

(** ** Requests, and the monad of the asynchronous operations *)

(** The object [axios.create] returns. *)
Record client := {
  baseURL : string;
  auth : option string * option string;
  headers : list (string * string)
}.

(** One [form.append]: a file with its options, or a plain field. *)
Inductive part :=
| FilePart (field content filename contentType : string)
| FieldPart (field value : string).

Inductive body :=
| UrlEncoded (params : list (string * string))
| Multipart (parts : list part).

Inductive request :=
| GET (url : string)
| POST (url : string) (data : body) (hdrs : list (string * string))
| DELETE (url : string) (hdrs : list (string * string)).

(** What awaiting a request gives: the response's [data], or a rejection. *)
Inductive outcome :=
| Resolved (data : json)
| Rejected (error : exn).

(** An operation yields the requests it sent, in order, and either the
    exception it was rejected with or its result. *)
Definition M (A : Type) : Type := list (client * request) * (exn + A).

Definition ret {A} (a : A) : M A := ([], inr a).

Definition throw {A} (e : exn) : M A := ([], inl e).

Definition bind {A B} (m : M A) (k : A -> M B) : M B :=
  match m with
  | (sent, inl e) => (sent, inl e)
  | (sent, inr a) => let (sent', r) := k a in ((sent ++ sent')%list, r)
  end.

(** [try { m } catch (error) { handler(error) }] *)
Definition try_catch {A} (m : M A) (handler : exn -> M A) : M A :=
  match m with
  | (sent, inl e) => let (sent', r) := handler e in ((sent ++ sent')%list, r)
  | (sent, inr a) => (sent, inr a)
  end.

(** A synchronous computation inside an [async] body. *)
Definition lift {A} (r : exn + A) : M A := ([], r).

Notation "'let*' x := m 'in' k" := (bind m (fun x => k))
  (at level 10, x name, m at level 100, k at level 200, only parsing).

(** ** Rows of the three listings *)

Module Asset.
Record t := {
    name : string;
    path : string;
    type : json;
    title : json;
    mimeType : json;
    lastModified : json
}.
End Asset.

Module Page.
Record t := {
    name : string;
    path : string;
    title : json;
    template : json;
    lastModified : json
}.
End Page.

Module Tag.
Record t := {
    name : string;
    path : string;
    title : json;
    description : json;
    count : json
}.
End Tag.

(** The loop of [listAssets] over [Object.entries(data)], with [assets] the
    array built so far: [continue] is the recursive call on the remaining
    entries, [break] returns. *)
Fixpoint listAssets_loop (path : string) (limit : Z) (entries : list (string * json))
    (assets : list Asset.t) : exn + list Asset.t :=
  match entries with
  | [] => inr assets
  | (key, value) :: rest =>
      if skip_key key then listAssets_loop path limit rest assets
      else if typeof_object value then
        match get value "jcr:primaryType" with
        | inl e => inl e
        | inr None => listAssets_loop path limit rest assets
        | inr (Some primaryType) =>
            if truthy_value primaryType then
              let content := member value "jcr:content" in
              let assets' := (assets ++ [ {|
                Asset.name := key;
                Asset.path := path ++ "/" ++ key;
                Asset.type := primaryType;
                Asset.title := js_or (get_opt content "jcr:title") (JStr key);
                Asset.mimeType := js_or (get_opt content "jcr:mimeType") (JStr "N/A");
                Asset.lastModified := js_or (get_opt content "jcr:lastModified") (JStr "N/A")
              |} ])%list in
              if (Z.of_nat (length assets') >=? limit)%Z then inr assets'
              else listAssets_loop path limit rest assets'
            else listAssets_loop path limit rest assets
        end
      else listAssets_loop path limit rest assets
  end.

(** The loop of [listPages]. *)
Fixpoint listPages_loop (path : string) (limit : Z) (entries : list (string * json))
    (pages : list Page.t) : exn + list Page.t :=
  match entries with
  | [] => inr pages
  | (key, value) :: rest =>
      if skip_key key then listPages_loop path limit rest pages
      else if typeof_object value then
        match get value "jcr:content" with
        | inl e => inl e
        | inr content =>
            let pages' := (pages ++ [ {|
              Page.name := key;
              Page.path := path ++ "/" ++ key;
              Page.title := js_or (get_opt content "jcr:title") (JStr key);
              Page.template := js_or (get_opt content "cq:template") (JStr "N/A");
              Page.lastModified := js_or (get_opt content "cq:lastModified") (JStr "N/A")
            |} ])%list in
            if (Z.of_nat (length pages') >=? limit)%Z then inr pages'
            else listPages_loop path limit rest pages'
        end
      else listPages_loop path limit rest pages
  end.

(** The loop of [listTags]; it has no [break]. *)
Fixpoint listTags_loop (namespace : string) (entries : list (string * json))
    (tags : list Tag.t) : exn + list Tag.t :=
  match entries with
  | [] => inr tags
  | (key, value) :: rest =>
      if skip_key key then listTags_loop namespace rest tags
      else if typeof_object value then
        match get value "jcr:title" with
        | inl e => inl e
        | inr title =>
            listTags_loop namespace rest (tags ++ [ {|
              Tag.name := key;
              Tag.path := namespace ++ "/" ++ key;
              Tag.title := js_or title (JStr key);
              Tag.description := js_or (member value "jcr:description") (JStr "N/A");
              Tag.count := js_or (member value "cq:count") (JNum 0)
            |} ])%list
        end
      else listTags_loop namespace rest tags
  end.

(** ** The API layer ([src/api.js]) *)

Definition DEFAULT_BASE_URL : string := "http://localhost:4502".

(** [o[k] = v] on an object under construction: an existing key keeps its
    place and takes the new value, a new key goes last. *)
Fixpoint set_prop {V : Type} (k : string) (v : V) (props : list (string * V))
    : list (string * V) :=
  match props with
  | [] => [(k, v)]
  | (k', v') :: rest =>
      if String.eqb k' k then (k', v) :: rest else (k', v') :: set_prop k v rest
  end.

(** [{ ...target, ...source }] for a [target] already built. *)
Definition spread (target : list (string * json)) (source : json) : list (string * json) :=
  fold_left (fun o kv => set_prop (fst kv) (snd kv) o) (spread_entries source) target.

Module CreatedPage.
Record t := {
  path : string;
  title : string;
  template : option string
}.
End CreatedPage.

Module CreatedTag.
Record t := {
  path : string;
  name : string;
  title : string;
  description : option string
}.
End CreatedTag.

Section Api.

(** The content of the configuration store while the operation runs. *)
Variable config : gmap string string.

(** The AEM instance: what each request sent through a client comes back as. *)
Variable net : client -> request -> outcome.

(** What [form.getHeaders()] returns (it contains a random boundary). *)
Variable form_headers : list (string * string).

Definition getClient : exn + client :=
  let username := getConfig config "username" in
  let password := getConfig config "password" in
  let baseURL := str_or (getConfig config "baseUrl") DEFAULT_BASE_URL in
  if negb (truthy_str username) || negb (truthy_str password) then
    inl (Error "AEM credentials not configured. Run: adobe config set --username admin --password admin")
  else
    inr {| baseURL := baseURL;
           auth := (username, password);
           headers := [("Accept", "application/json"); ("Content-Type", "application/json")] |}.

(** [handleApiError] throws on every path; this is the exception it throws. *)
Definition handleApiError (error : exn) : exn :=
  match exn_response error with
  | Some (status, data) =>
      if (status =? 401)%Z then Error "Authentication failed. Check your AEM credentials."
      else if (status =? 403)%Z then Error "Access forbidden. Check your AEM user permissions."
      else if (status =? 404)%Z then Error "Resource not found in AEM."
      else if (status =? 500)%Z then Error "AEM server error. Check your AEM instance."
      else
        let message :=
          js_or (get_opt (get_opt (Some data) "error") "message")
            (js_or (get_opt (Some data) "message") (JStr (JSON_stringify data))) in
        Error ("API Error (" ++ pretty status ++ "): " ++ to_string message)
  | None =>
      if exn_request error then
        let baseURL := str_or (getConfig config "baseUrl") DEFAULT_BASE_URL in
        Error ("No response from AEM at " ++ baseURL ++ ". Is your AEM instance running?")
      else error
  end.

(** [await client.get(url)] and the like, reduced to [response.data]. *)
Definition send (c : client) (r : request) : M json :=
  ([(c, r)], match net c r with Resolved data => inr data | Rejected e => inl e end).

(** [listAssets(path = '/content/dam', { limit = 20 } = {})]; an argument
    that is left out is [None]. *)
Definition listAssets (path : option string) (limit : option Z) : M (list Asset.t) :=
  let path := default "/content/dam" path in
  let limit := default 20%Z limit in
  try_catch
    (let* client := lift getClient in
     let* data := send client (GET (path ++ ".infinity.json")) in
     lift (match Object_entries data with
           | inl e => inl e
           | inr entries => listAssets_loop path limit entries []
           end))
    (fun error => throw (handleApiError error)).

Definition getAsset (assetPath : string) : M (list (string * json)) :=
  try_catch
    (let* client := lift getClient in
     let* data := send client (GET (assetPath ++ ".infinity.json")) in
     ret (spread [("path", JStr assetPath)] data))
    (fun error => throw (handleApiError error)).

Definition uploadAsset (damPath fileName fileContent : string) (mimeType : option string) : M json :=
  let mimeType := default "application/octet-stream" mimeType in
  try_catch
    (let* client := lift getClient in
     let form := Multipart [ FilePart "file" fileContent fileName mimeType;
                             FieldPart "fileName" fileName ] in
     let* data := send client (POST (damPath ++ ".createasset.html") form
                                 (set_prop "Accept" "application/json" form_headers)) in
     ret data)
    (fun error => throw (handleApiError error)).

Definition listPages (path : option string) (limit : option Z) : M (list Page.t) :=
  let path := default "/content" path in
  let limit := default 20%Z limit in
  try_catch
    (let* client := lift getClient in
     let* data := send client (GET (path ++ ".1.json")) in
     lift (match Object_entries data with
           | inl e => inl e
           | inr entries => listPages_loop path limit entries []
           end))
    (fun error => throw (handleApiError error)).

Definition getPage (pagePath : string) : M (list (string * json)) :=
  try_catch
    (let* client := lift getClient in
     let* data := send client (GET (pagePath ++ ".infinity.json")) in
     ret (spread [("path", JStr pagePath)] data))
    (fun error => throw (handleApiError error)).

Definition createPage (parentPath pageName title : string) (template : option string)
    : M CreatedPage.t :=
  try_catch
    (let* client := lift getClient in
     let params := UrlEncoded [
       ("_charset_", "utf-8");
       (":name", pageName);
       ("jcr:primaryType", "cq:Page");
       ("jcr:content/jcr:primaryType", "cq:PageContent");
       ("jcr:content/jcr:title", title);
       ("jcr:content/cq:template", str_or template "/libs/wcm/foundation/templates/page")
     ] in
     let* response := send client (POST parentPath params
                                     [("Content-Type", "application/x-www-form-urlencoded")]) in
     ret {| CreatedPage.path := parentPath ++ "/" ++ pageName;
            CreatedPage.title := title;
            CreatedPage.template := template |})
    (fun error => throw (handleApiError error)).

Definition listTags (namespace : option string) : M (list Tag.t) :=
  let namespace := default "/content/cq:tags" namespace in
  try_catch
    (let* client := lift getClient in
     let* data := send client (GET (namespace ++ ".1.json")) in
     lift (match Object_entries data with
           | inl e => inl e
           | inr entries => listTags_loop namespace entries []
           end))
    (fun error => throw (handleApiError error)).

Definition createTag (namespace tagName title : string) (description : option string)
    : M CreatedTag.t :=
  try_catch
    (let* client := lift getClient in
     let params := UrlEncoded ([
       ("_charset_", "utf-8");
       ("jcr:primaryType", "cq:Tag");
       ("jcr:title", title)
     ] ++ match description with
          | Some d => if String.eqb d EmptyString then [] else [("jcr:description", d)]
          | None => []
          end)%list in
     let* response := send client (POST (namespace ++ "/" ++ tagName) params
                                     [("Content-Type", "application/x-www-form-urlencoded")]) in
     ret {| CreatedTag.path := namespace ++ "/" ++ tagName;
            CreatedTag.name := tagName;
            CreatedTag.title := title;
            CreatedTag.description := description |})
    (fun error => throw (handleApiError error)).

Definition deleteTag (tagPath : string) : M unit :=
  try_catch
    (let* client := lift getClient in
     let* response := send client (DELETE tagPath
                                     [("Content-Type", "application/x-www-form-urlencoded")]) in
     ret tt)
    (fun error => throw (handleApiError error)).

End Api.

(** ** The [config] commands ([src/index.js]) *)

(** [chalk] styles; what they print as depends on the terminal. *)
Inductive style := green | red | yellow | cyan | bold.

Inductive text :=
| Plain (s : string)
| Chalk (c : style) (t : text)
| Append (a b : text).

(** One call of [console.log] or [console.error], with its arguments. *)
Inductive output :=
| console_log (args : list text)
| console_error (args : list text).

Definition newline : string := String "010"%char EmptyString.

Definition printSuccess (message : string) : list output :=
  [console_log [Append (Chalk green (Plain "✓")) (Plain (" " ++ message))]].

Definition printError (message : string) : list output :=
  [console_error [Append (Chalk red (Plain "✗")) (Plain (" " ++ message))]].

(** [config set]: the store after the command, and what it printed. *)
Definition config_set (username password baseUrl : option string) (config : gmap string string)
    : gmap string string * list output :=
  let step (key : string) (opt : option string) (said : string -> string)
           (st : gmap string string * list output) :=
    match opt with
    | Some v =>
        if String.eqb v EmptyString then st
        else (setConfig key v (fst st), (snd st ++ printSuccess (said v))%list)
    | None => st
    end in
  let st := step "username" username (fun _ => "Username set") (config, []) in
  let st := step "password" password (fun _ => "Password set") st in
  let st := step "baseUrl" baseUrl (fun v => "Base URL set to: " ++ v) st in
  if negb (truthy_str username) && negb (truthy_str password) && negb (truthy_str baseUrl) then
    (fst st, (snd st ++ printError "No options provided. Use --username, --password, or --base-url")%list)
  else st.

(** [config get <key>] *)
Definition config_get (key : string) (config : gmap string string) : list output :=
  match getConfig config key with
  | None => printError ("Key " ++ dquote ++ key ++ dquote ++ " not found")
  | Some value => [console_log [Plain (if String.eqb key "password" then "****" else value)]]
  end.

(** [config list] *)
Definition config_list (config : gmap string string) : list output :=
  let all := getAllConfig config in
  [ console_log [Chalk bold (Plain (newline ++ "Adobe AEM CLI Configuration" ++ newline))];
    console_log [Plain "Username: ";
                 match all !! "username" with
                 | Some u => if String.eqb u EmptyString then Chalk red (Plain "not set")
                             else Chalk green (Plain u)
                 | None => Chalk red (Plain "not set")
                 end];
    console_log [Plain "Password: ";
                 if truthy_str (all !! "password") then Chalk green (Plain "****")
                 else Chalk red (Plain "not set")];
    console_log [Plain "Base URL: ";
                 match all !! "baseUrl" with
                 | Some b => if String.eqb b EmptyString
                             then Chalk yellow (Plain "using default: http://localhost:4502")
                             else Chalk green (Plain b)
                 | None => Chalk yellow (Plain "using default: http://localhost:4502")
                 end];
    console_log [Plain EmptyString] ].

(** ** Tables ([printTable] in [src/index.js]) *)

(** [s.repeat(n)] *)
Fixpoint repeat_string (s : string) (n : nat) : string :=
  match n with
  | O => EmptyString
  | S n' => s ++ repeat_string s n'
  end.

(** [s.padEnd(n)]: spaces are appended up to the length [n]. *)
Definition padEnd (n : nat) (s : string) : string :=
  s ++ repeat_string " " (n - String.length s).

(** A column of a table; no caller sets [format]. *)
Module Column.
Record t (R : Type) := {
  key : string;
  label : string;
  format : option (option json -> R -> json)
}.
Arguments key {R} _.
Arguments label {R} _.
Arguments format {R} _.
End Column.

Section Table.

(** The rows, with [field row k] for [row[k]]. *)
Variable R : Type.
Variable field : R -> string -> option json.

(** [chalk.dim], a style the [config] commands do not use. *)
Variable dim : string -> text.

(** [String(col.format ? col.format(row[col.key], row) : (row[col.key] ?? ''))] *)
Definition cell (col : Column.t R) (row : R) : string :=
  match Column.format col with
  | Some f => to_string (f (field row (Column.key col)) row)
  | None =>
      match field row (Column.key col) with
      | None | Some JNull => EmptyString
      | Some v => to_string v
      end
  end.

(** What [widths[col.key]] is once the column has been measured: the
    longest of the label and the cells, at most 50. *)
Definition column_width (data : list R) (col : Column.t R) : nat :=
  Nat.min
    (fold_left (fun w row =>
                  let val := cell col row in
                  if (w <? String.length val)%nat then String.length val else w)
       data (String.length (Column.label col)))
    50.

(** The object [widths] after [columns.forEach]. *)
Definition table_widths (data : list R) (columns : list (Column.t R)) : gmap string nat :=
  fold_left (fun widths col => <[Column.key col := column_width data col]> widths) columns ∅.

Definition table_header (widths : gmap string nat) (columns : list (Column.t R)) : string :=
  String.concat "  "
    (map (fun col => padEnd (widths !!! Column.key col) (Column.label col)) columns).

Definition table_line (widths : gmap string nat) (columns : list (Column.t R)) (row : R) : string :=
  String.concat "  "
    (map (fun col =>
            let val := cell col row in
            padEnd (widths !!! Column.key col)
              (String.substring 0 (widths !!! Column.key col) val))
       columns).

(** [printTable(data, columns)] for an array [data]. *)
Definition printTable (data : list R) (columns : list (Column.t R)) : list output :=
  match data with
  | [] => [console_log [Chalk yellow (Plain "No results found.")]]
  | _ :: _ =>
      let widths := table_widths data columns in
      let header := table_header widths columns in
      ([ console_log [Chalk bold (Chalk cyan (Plain header))];
         console_log [dim (repeat_string "─" (String.length header))] ]
       ++ map (fun row => console_log [Plain (table_line widths columns row)]) data
       ++ [ console_log [dim (newline ++ pretty (length data) ++ " result(s)")] ])%list
  end.

End Table.

(** ** The [tags] commands ([src/index.js]) *)

(** [row[key]] for a row of the tag listing. *)
Definition tag_field (row : Tag.t) (key : string) : option json :=
  if String.eqb key "name" then Some (JStr (Tag.name row))
  else if String.eqb key "path" then Some (JStr (Tag.path row))
  else if String.eqb key "title" then Some (Tag.title row)
  else if String.eqb key "description" then Some (Tag.description row)
  else if String.eqb key "count" then Some (Tag.count row)
  else None.

Definition tag_columns : list (Column.t Tag.t) :=
  [ {| Column.key := "name"; Column.label := "Name"; Column.format := None |};
    {| Column.key := "title"; Column.label := "Title"; Column.format := None |};
    {| Column.key := "count"; Column.label := "Usage Count"; Column.format := None |};
    {| Column.key := "path"; Column.label := "Path"; Column.format := None |} ].

(** What a command does, in order: it prints, starts and stops the
    spinner, sends requests, and may end the process with [process.exit]. *)
Inductive event :=
| Printed (o : output)
| SpinnerStart (message : string)
| SpinnerStop
| Requested (c : client) (r : request)
| Exit (code : Z).

(** [withSpinner(message, fn)]: the spinner is stopped on both paths, and
    the result or the exception of [fn] is passed on. *)
Definition withSpinner {A} (message : string) (fn : M A) : list event * (exn + A) :=
  (([SpinnerStart message] ++ map (fun cr => Requested (fst cr) (snd cr)) (fst fn)
    ++ [SpinnerStop])%list,
   snd fn).

(** What [requireAuth] prints before [process.exit(1)] when the store is
    not configured. *)
Definition requireAuth_refusal : list event :=
  (map Printed
     (printError "AEM credentials not configured."
      ++ [ console_log [Plain (newline ++ "Run the following to configure:")];
           console_log [Chalk cyan (Plain "  adobe config set --username admin --password admin")];
           console_log [Chalk cyan (Plain "  adobe config set --base-url http://localhost:4502")] ])
   ++ [Exit 1%Z])%list.

Section Commands.

Variable config : gmap string string.
Variable net : client -> request -> outcome.

(** The message the engine gives a [TypeError]. *)
Variable TypeError_message : string.

(** [JSON.stringify(tags, null, 2)] *)
Variable JSON_pretty : list Tag.t -> string.

Variable dim : string -> text.

(** [error.message] *)
Definition exn_message (error : exn) : string :=
  match error with
  | Error message => message
  | TypeError => TypeError_message
  | AxiosError message _ _ => message
  end.

(** [catch (error) { printError(error.message); process.exit(1); }] *)
Definition command_failed (error : exn) : list event :=
  (map Printed (printError (exn_message error)) ++ [Exit 1%Z])%list.

(** [adobe tags list --namespace <namespace> [--json]] *)
Definition tags_list (namespace : string) (json_flag : bool) : list event :=
  if isConfigured config then
    let (events, result) := withSpinner "Fetching tags..." (listTags config net (Some namespace)) in
    match result with
    | inr tags =>
        if json_flag then (events ++ [Printed (console_log [Plain (JSON_pretty tags)])])%list
        else (events ++ map Printed (printTable Tag.t tag_field dim tags tag_columns))%list
    | inl error => (events ++ command_failed error)%list
    end
  else requireAuth_refusal.

(** [adobe tags delete <tag-path>] *)
Definition tags_delete (tagPath : string) : list event :=
  if isConfigured config then
    let (events, result) := withSpinner "Deleting tag..." (deleteTag config net tagPath) in
    match result with
    | inr _ => (events ++ map Printed (printSuccess "Tag deleted successfully"))%list
    | inl error => (events ++ command_failed error)%list
    end
  else requireAuth_refusal.

End Commands.

(** * Vocabulary of the properties, and fixtures *)

(** Where a row comes from: a property of the document that is not
    reserved and whose value has type [object]. *)
Definition projected (path : string) (all : list (string * json)) (name path' : string) : Prop :=
  path' = path ++ "/" ++ name /\ skip_key name = false /\
  exists value, In (name, value) all /\ typeof_object value = true.

(** An object that carries a non-empty (truthy) [jcr:primaryType]. *)
Definition carries_primaryType (v : json) : bool :=
  match v with
  | JObj props => truthy (own "jcr:primaryType" props)
  | _ => false
  end.

(** An object or an array. *)
Definition object_valued (v : json) : bool :=
  match v with
  | JObj _ | JArr _ => true
  | _ => false
  end.

Definition reserved (kv : string * json) : bool := skip_key (fst kv).

Definition asset_child (kv : string * json) : bool :=
  negb (reserved kv) && carries_primaryType (snd kv).

Definition object_child (kv : string * json) : bool :=
  negb (reserved kv) && object_valued (snd kv).

(** No property outside the reserved ones is [null]. *)
Definition no_null_child (entries : list (string * json)) : Prop :=
  Forall (fun kv => reserved kv = false -> snd kv <> JNull) entries.

(** Credentials as the README sets them. *)
Definition admin_config : gmap string string :=
  setConfig "username" "admin" (setConfig "password" "admin" ∅).

Definition admin_client : client :=
  {| baseURL := DEFAULT_BASE_URL;
     auth := (Some "admin", Some "admin");
     headers := [("Accept", "application/json"); ("Content-Type", "application/json")] |}.

(** An instance that answers every request with the same document. *)
Definition answer (data : json) : client -> request -> outcome :=
  fun _ _ => Resolved data.

Definition dam_asset : json := JObj [("jcr:primaryType", JStr "dam:Asset")].

Definition NOT_CONFIGURED : string :=
  "AEM credentials not configured. Run: adobe config set --username admin --password admin".

(** An operation that sent nothing and was rejected with [NOT_CONFIGURED]. *)
Definition not_configured {A} : M A := ([], inl (Error NOT_CONFIGURED)).

(** The username or the password is unset or empty. *)
Definition credentials_missing (config : gmap string string) : Prop :=
  config !! "username" = None \/ config !! "username" = Some EmptyString \/
  config !! "password" = None \/ config !! "password" = Some EmptyString.

(** A document that has a [path] property of its own. *)
Definition document_with_path : json :=
  JObj [("jcr:primaryType", JStr "dam:Asset"); ("path", JStr "/elsewhere")].

(** The body's nested [error.message] field, and its [message] field. *)
Definition nested_error_message (data : json) : option json :=
  match data with
  | JObj props =>
      match own "error" props with
      | Some (JObj error) => own "message" error
      | _ => None
      end
  | _ => None
  end.

Definition body_message (data : json) : option json :=
  match data with
  | JObj props => own "message" props
  | _ => None
  end.

(** A field counts when it is there and truthy (not [null], [false], [0]
    or the empty string). *)
Definition usable (field : option json) : option json :=
  match field with
  | Some v => if truthy_value v then Some v else None
  | None => None
  end.

(** The message of an [API Error]: the first usable one of the nested
    error message and the body's message, else the serialized body. *)
Definition spec_api_message (data : json) : string :=
  match usable (nested_error_message data) with
  | Some m => to_string m
  | None =>
      match usable (body_message data) with
      | Some m => to_string m
      | None => JSON_stringify data
      end
  end.

(** An instance that rejects every request with the same error. *)
Definition refuse (error : exn) : client -> request -> outcome :=
  fun _ _ => Rejected error.

(** A body whose nested error message is present and empty. *)
Definition empty_nested_message : json :=
  JObj [("error", JObj [("message", JStr EmptyString)]); ("message", JStr "quota exceeded")].

(** A body with a nested error message under status 400. *)
Definition bad_request_body : json :=
  JObj [("error", JObj [("message", JStr "Invalid path")])].

Definition MASK : string := "****".

Definition photo_response : json :=
  JObj [ ("jcr:primaryType", JStr "x");
         ("img1", JObj [ ("jcr:primaryType", JStr "dam:Asset");
                         ("jcr:content", JObj [("jcr:title", JStr "Photo")]) ]) ].

Definition photo_row : Asset.t :=
  {| Asset.name := "img1";
     Asset.path := "/content/dam/img1";
     Asset.type := JStr "dam:Asset";
     Asset.title := JStr "Photo";
     Asset.mimeType := JStr "N/A";
     Asset.lastModified := JStr "N/A" |}.

(** The rows come from the document the server returned for [url]: each
    row's path is the request path, a slash and the row's name, and the
    row's name is the key of a property of that document. *)
Definition rows_of_response {R : Type} (name path : R -> string)
    (net : client -> request -> outcome) (url requestPath : string) (rows : list R) : Prop :=
  exists c data entries,
    net c (GET url) = Resolved data /\
    Object_entries data = inr entries /\
    Forall (fun r => path r = requestPath ++ "/" ++ name r /\
                     exists value, In (name r, value) entries) rows.

(** A name that neither starts with [jcr:] nor is [rep:policy]. *)
Definition unreserved (name : string) : Prop :=
  (forall rest, name <> "jcr:" ++ rest) /\ name <> "rep:policy".

Definition two_assets : json := JObj [("a", dam_asset); ("b", dam_asset)].

(** A folder with a string property, an array, an asset, a plain object and
    a second asset, after its own primary type. *)
Definition mixed_folder : list (string * json) :=
  [ ("jcr:primaryType", JStr "sling:Folder");
    ("note", JStr "text");
    ("list", JArr [JNum 1]);
    ("a", dam_asset);
    ("plain", JObj []);
    ("b", dam_asset) ].

Definition one_asset : json := JObj [("a", dam_asset)].

(** The value of a command-line option that is given and not empty. *)
Definition provided (o : option string) : option string :=
  match o with
  | Some v => if String.eqb v EmptyString then None else Some v
  | None => None
  end.

(** The store with [key] set to the option's value, if one is provided. *)
Definition set_if_provided (key : string) (o : option string) (config : gmap string string)
    : gmap string string :=
  match provided o with
  | Some v => <[key := v]> config
  | None => config
  end.

(** The success line of an option, if one is provided. *)
Definition said_if_provided (o : option string) (message : string -> string) : list output :=
  match provided o with
  | Some v => printSuccess (message v)
  | None => []
  end.

(** The value of a form field or of a header, by name. *)
Fixpoint param (k : string) (l : list (string * string)) : option string :=
  match l with
  | [] => None
  | (k', v) :: rest => if String.eqb k' k then Some v else param k rest
  end.

Definition FORM_HEADERS : list (string * string) :=
  [("Content-Type", "application/x-www-form-urlencoded")].

(** A body that is a string, a number or a boolean, as when the server
    answers with text that is not JSON. *)
Definition primitive_body (data : json) : bool :=
  match data with
  | JBool _ | JNum _ | JStr _ => true
  | JNull | JArr _ | JObj _ => false
  end.


(** [chalk] on a terminal without colours. *)
Definition no_style (s : string) : text := Plain s.

(** No field of an asset row is empty. *)
Definition asset_row_filled (r : Asset.t) : Prop :=
  truthy_value (Asset.type r) = true /\
  truthy_value (Asset.mimeType r) = true /\
  truthy_value (Asset.lastModified r) = true /\
  (Asset.name r <> EmptyString -> truthy_value (Asset.title r) = true).

Definition page_row_filled (r : Page.t) : Prop :=
  truthy_value (Page.template r) = true /\
  truthy_value (Page.lastModified r) = true /\
  (Page.name r <> EmptyString -> truthy_value (Page.title r) = true).

Definition tag_row_filled (r : Tag.t) : Prop :=
  truthy_value (Tag.description r) = true /\
  (truthy_value (Tag.count r) = true \/ Tag.count r = JNum 0) /\
  (Tag.name r <> EmptyString -> truthy_value (Tag.title r) = true).

(** * Properties *)

(** ** The monad *)

Lemma bind_lift_inl {A B} (e : exn) (k : A -> M B) : bind (lift (inl e)) k = ([], inl e).
Proof. reflexivity. Qed.

Lemma bind_lift_inr {A B} (a : A) (k : A -> M B) : bind (lift (inr a)) k = k a.
Proof. unfold bind, lift. destruct (k a) as [sent r]. reflexivity. Qed.

(** ** Reserved keys *)

Lemma skip_key_jcr (rest : string) : skip_key ("jcr:" ++ rest) = true.
Proof. unfold skip_key. cbv [String.append]. simpl. destruct rest; reflexivity. Qed.

Lemma prefix_split (p s : string) :
  String.prefix p s = true -> exists rest, s = p ++ rest.
Proof.
  revert s. induction p as [|a p IH]; intros s H.
  - exists s. reflexivity.
  - destruct s as [|b s]; simpl in H; [discriminate|].
    destruct (ascii_dec a b) as [->|]; [|discriminate].
    destruct (IH s H) as [rest ->]. exists rest. reflexivity.
Qed.

(** A key is skipped exactly when it starts with [jcr:] or is [rep:policy]. *)
Lemma skip_key_spec (key : string) :
  skip_key key = true <-> (exists rest, key = "jcr:" ++ rest) \/ key = "rep:policy".
Proof.
  unfold skip_key. rewrite orb_true_iff, String.eqb_eq. split.
  - intros [H|H]; [left; apply prefix_split; exact H | right; exact H].
  - intros [[rest ->]|H]; [left | right; exact H].
    pose proof (skip_key_jcr rest) as Hk. unfold skip_key in Hk.
    apply orb_true_iff in Hk as [Hk|Hk]; [exact Hk|].
    apply String.eqb_eq in Hk. cbv [String.append] in Hk. discriminate.
Qed.

(** ** The three loops *)

Section Loops.

Variable path : string.

Ltac step_entry IH Hrun :=
  simpl in Hrun;
  repeat match type of Hrun with
  | context [skip_key ?k] => destruct (skip_key k) eqn:?
  | context [typeof_object ?v] => destruct (typeof_object v) eqn:?
  | context [get ?v ?k] => destruct (get v k) as [?|[?|]] eqn:?
  | context [truthy_value ?v] => destruct (truthy_value v) eqn:?
  | context [(?a >=? ?b)%Z] => destruct (Z.geb_spec a b)
  end;
  try discriminate.

Lemma listAssets_loop_projected limit all entries : forall assets rows,
  (forall kv, In kv entries -> In kv all) ->
  Forall (fun r => projected path all (Asset.name r) (Asset.path r)) assets ->
  listAssets_loop path limit entries assets = inr rows ->
  Forall (fun r => projected path all (Asset.name r) (Asset.path r)) rows.
Proof.
  induction entries as [|[key value] rest IH]; intros assets rows Hin Hacc Hrun.
  - simpl in Hrun. injection Hrun as <-. exact Hacc.
  - assert (Hrest : forall kv, In kv rest -> In kv all) by (intros; apply Hin; right; assumption).
    assert (Hrow : forall r, Asset.name r = key -> Asset.path r = path ++ "/" ++ key ->
              skip_key key = false -> typeof_object value = true ->
              Forall (fun r => projected path all (Asset.name r) (Asset.path r)) (assets ++ [r])%list).
    { intros r Hn Hp Hs Ht. apply Forall_app. split; [exact Hacc|].
      constructor; [|constructor]. unfold projected. rewrite Hn, Hp.
      repeat split; try assumption. exists value. split; [apply Hin; left; reflexivity|assumption]. }
    step_entry IH Hrun; try (eapply IH; eassumption).
    + injection Hrun as <-. apply Hrow; auto.
    + eapply IH; [exact Hrest| |exact Hrun]. apply Hrow; auto.
Qed.

Lemma listPages_loop_projected limit all entries : forall pages rows,
  (forall kv, In kv entries -> In kv all) ->
  Forall (fun r => projected path all (Page.name r) (Page.path r)) pages ->
  listPages_loop path limit entries pages = inr rows ->
  Forall (fun r => projected path all (Page.name r) (Page.path r)) rows.
Proof.
  induction entries as [|[key value] rest IH]; intros pages rows Hin Hacc Hrun.
  - simpl in Hrun. injection Hrun as <-. exact Hacc.
  - assert (Hrest : forall kv, In kv rest -> In kv all) by (intros; apply Hin; right; assumption).
    assert (Hrow : forall r, Page.name r = key -> Page.path r = path ++ "/" ++ key ->
              skip_key key = false -> typeof_object value = true ->
              Forall (fun r => projected path all (Page.name r) (Page.path r)) (pages ++ [r])%list).
    { intros r Hn Hp Hs Ht. apply Forall_app. split; [exact Hacc|].
      constructor; [|constructor]. unfold projected. rewrite Hn, Hp.
      repeat split; try assumption. exists value. split; [apply Hin; left; reflexivity|assumption]. }
    simpl in Hrun.
    destruct (skip_key key) eqn:Hs; [eapply IH; eassumption|].
    destruct (typeof_object value) eqn:Ht; [|eapply IH; eassumption].
    destruct (get value "jcr:content") as [e|content]; [discriminate|].
    match type of Hrun with context [(?a >=? ?b)%Z] => destruct (Z.geb_spec a b) end.
    + injection Hrun as <-. apply Hrow; auto.
    + eapply IH; [exact Hrest| |exact Hrun]. apply Hrow; auto.
Qed.

Lemma listTags_loop_projected all entries : forall tags rows,
  (forall kv, In kv entries -> In kv all) ->
  Forall (fun r => projected path all (Tag.name r) (Tag.path r)) tags ->
  listTags_loop path entries tags = inr rows ->
  Forall (fun r => projected path all (Tag.name r) (Tag.path r)) rows.
Proof.
  induction entries as [|[key value] rest IH]; intros tags rows Hin Hacc Hrun.
  - simpl in Hrun. injection Hrun as <-. exact Hacc.
  - assert (Hrest : forall kv, In kv rest -> In kv all) by (intros; apply Hin; right; assumption).
    simpl in Hrun.
    destruct (skip_key key) eqn:Hs; [eapply IH; eassumption|].
    destruct (typeof_object value) eqn:Ht; [|eapply IH; eassumption].
    destruct (get value "jcr:title") as [e|title]; [discriminate|].
    eapply IH; [exact Hrest| |exact Hrun].
    apply Forall_app. split; [exact Hacc|]. constructor; [|constructor].
    unfold projected; simpl. repeat split; try assumption.
    exists value. split; [apply Hin; left; reflexivity|assumption].
Qed.

End Loops.

(** ** Which children the loops retain *)

Lemma firstn_one_more {A} (n len : nat) (x : A) (l : list A) :
  (len < n)%nat -> firstn (n - len) (x :: l) = x :: firstn (n - S len) l.
Proof. intros H. replace (n - len)%nat with (S (n - S len)) by lia. reflexivity. Qed.

Lemma listAssets_loop_names path limit entries : forall assets,
  no_null_child entries ->
  (Z.of_nat (length assets) < limit)%Z ->
  exists rows,
    listAssets_loop path limit entries assets = inr rows /\
    map Asset.name rows =
      (map Asset.name assets ++
       firstn (Z.to_nat limit - length assets) (map fst (List.filter asset_child entries)))%list.
Proof.
  induction entries as [|[key value] rest IH]; intros assets Hnull Hlen.
  - exists assets. simpl. rewrite firstn_nil, app_nil_r. auto.
  - apply Forall_cons in Hnull as [Hv Hnull]. unfold reserved in Hv. simpl in Hv.
    simpl. unfold asset_child at 1, reserved. simpl.
    destruct (skip_key key) eqn:Hs; simpl; [apply IH; assumption|].
    specialize (Hv eq_refl).
    destruct value as [|b|n|s|items|props]; simpl; try (apply IH; assumption);
      [congruence|].
    destruct (own "jcr:primaryType" props) as [primaryType|]; simpl;
      [|apply IH; assumption].
    destruct (truthy_value primaryType); [|apply IH; assumption].
    rewrite length_app. simpl length.
    match goal with |- context [(?a >=? ?b)%Z] => destruct (Z.geb_spec a b) as [Hge|Hlt] end.
    + eexists. split; [reflexivity|].
      rewrite map_app. simpl. f_equal.
      replace (Z.to_nat limit - length assets)%nat with 1%nat by lia.
      simpl. rewrite firstn_0. reflexivity.
    + edestruct IH as [rows [Hrun Hnames]]; [exact Hnull| |].
      2:{ exists rows. split; [exact Hrun|]. rewrite Hnames.
          rewrite length_app, map_app. simpl.
          rewrite <- app_assoc. simpl. f_equal.
          rewrite (firstn_one_more (Z.to_nat limit) (length assets)) by lia.
          do 2 f_equal. lia. }
      rewrite length_app. simpl. lia.
Qed.

Lemma listPages_loop_names path limit entries : forall pages,
  no_null_child entries ->
  (Z.of_nat (length pages) < limit)%Z ->
  exists rows,
    listPages_loop path limit entries pages = inr rows /\
    map Page.name rows =
      (map Page.name pages ++
       firstn (Z.to_nat limit - length pages) (map fst (List.filter object_child entries)))%list.
Proof.
  induction entries as [|[key value] rest IH]; intros pages Hnull Hlen.
  - exists pages. simpl. rewrite firstn_nil, app_nil_r. auto.
  - apply Forall_cons in Hnull as [Hv Hnull]. unfold reserved in Hv. simpl in Hv.
    simpl. unfold object_child at 1, reserved. simpl.
    destruct (skip_key key) eqn:Hs; simpl; [apply IH; assumption|].
    specialize (Hv eq_refl).
    destruct value as [|b|n|s|items|props]; simpl; try (apply IH; assumption);
      [congruence| |].
    all: rewrite length_app; simpl length.
    all: match goal with |- context [(?a >=? ?b)%Z] => destruct (Z.geb_spec a b) as [Hge|Hlt] end.
    all: try (eexists; split; [reflexivity|];
              rewrite map_app; simpl; f_equal;
              replace (Z.to_nat limit - length pages)%nat with 1%nat by lia;
              simpl; rewrite firstn_0; reflexivity).
    all: edestruct IH as [rows [Hrun Hnames]]; [exact Hnull| |];
         [|exists rows; split; [exact Hrun|]; rewrite Hnames;
           rewrite length_app, map_app; simpl;
           rewrite <- app_assoc; simpl; f_equal;
           rewrite (firstn_one_more (Z.to_nat limit) (length pages)) by lia;
           do 2 f_equal; lia];
         rewrite length_app; simpl; lia.
Qed.

Lemma listTags_loop_names namespace entries : forall tags,
  no_null_child entries ->
  exists rows,
    listTags_loop namespace entries tags = inr rows /\
    map Tag.name rows = (map Tag.name tags ++ map fst (List.filter object_child entries))%list.
Proof.
  induction entries as [|[key value] rest IH]; intros tags Hnull.
  - exists tags. simpl. rewrite app_nil_r. auto.
  - apply Forall_cons in Hnull as [Hv Hnull]. unfold reserved in Hv. simpl in Hv.
    simpl. unfold object_child at 1, reserved. simpl.
    destruct (skip_key key) eqn:Hs; simpl; [apply IH; assumption|].
    specialize (Hv eq_refl).
    destruct value as [|b|n|s|items|props]; simpl; try (apply IH; assumption);
      [congruence| |].
    all: edestruct IH as [rows [Hrun Hnames]]; [exact Hnull|];
         exists rows; split; [exact Hrun|]; rewrite Hnames, map_app; simpl;
         rewrite <- app_assoc; reflexivity.
Qed.

(** Reserved properties have no influence on a listing: neither a row nor
    an exception comes from them. *)

Lemma listAssets_loop_skip path limit entries : forall assets,
  listAssets_loop path limit (List.filter (fun kv => negb (reserved kv)) entries) assets =
  listAssets_loop path limit entries assets.
Proof.
  induction entries as [|[key value] rest IH]; intros assets; [reflexivity|].
  unfold reserved at 1. simpl. destruct (skip_key key) eqn:Hs; simpl; [apply IH|].
  rewrite Hs. destruct (typeof_object value); [|apply IH].
  destruct (get value "jcr:primaryType") as [e|[primaryType|]]; [reflexivity| |apply IH].
  destruct (truthy_value primaryType); [|apply IH].
  match goal with |- context [(?a >=? ?b)%Z] => destruct (a >=? b)%Z end;
    [reflexivity|apply IH].
Qed.

Lemma listPages_loop_skip path limit entries : forall pages,
  listPages_loop path limit (List.filter (fun kv => negb (reserved kv)) entries) pages =
  listPages_loop path limit entries pages.
Proof.
  induction entries as [|[key value] rest IH]; intros pages; [reflexivity|].
  unfold reserved at 1. simpl. destruct (skip_key key) eqn:Hs; simpl; [apply IH|].
  rewrite Hs. destruct (typeof_object value); [|apply IH].
  destruct (get value "jcr:content") as [e|content]; [reflexivity|].
  match goal with |- context [(?a >=? ?b)%Z] => destruct (a >=? b)%Z end;
    [reflexivity|apply IH].
Qed.

Lemma listTags_loop_skip namespace entries : forall tags,
  listTags_loop namespace (List.filter (fun kv => negb (reserved kv)) entries) tags =
  listTags_loop namespace entries tags.
Proof.
  induction entries as [|[key value] rest IH]; intros tags; [reflexivity|].
  unfold reserved at 1. simpl. destruct (skip_key key) eqn:Hs; simpl; [apply IH|].
  rewrite Hs. destruct (typeof_object value); [|apply IH].
  destruct (get value "jcr:title") as [e|title]; [reflexivity|apply IH].
Qed.

(** ** The limit, from one upwards *)

Lemma listAssets_loop_length path limit entries : forall assets rows,
  listAssets_loop path limit entries assets = inr rows ->
  (Z.of_nat (length assets) < limit)%Z ->
  (Z.of_nat (length rows) <= limit)%Z.
Proof.
  induction entries as [|[key value] rest IH]; intros assets rows Hrun Hlen; simpl in Hrun.
  - injection Hrun as <-. lia.
  - destruct (skip_key key); [eapply IH; eassumption|].
    destruct (typeof_object value); [|eapply IH; eassumption].
    destruct (get value "jcr:primaryType") as [e|[primaryType|]];
      [discriminate| |eapply IH; eassumption].
    destruct (truthy_value primaryType); [|eapply IH; eassumption].
    rewrite length_app in Hrun. simpl length in Hrun.
    match type of Hrun with context [(?a >=? ?b)%Z] => destruct (Z.geb_spec a b) end.
    + injection Hrun as <-. rewrite length_app. simpl. lia.
    + eapply IH; [exact Hrun|]. rewrite length_app. simpl. lia.
Qed.

Lemma listPages_loop_length path limit entries : forall pages rows,
  listPages_loop path limit entries pages = inr rows ->
  (Z.of_nat (length pages) < limit)%Z ->
  (Z.of_nat (length rows) <= limit)%Z.
Proof.
  induction entries as [|[key value] rest IH]; intros pages rows Hrun Hlen; simpl in Hrun.
  - injection Hrun as <-. lia.
  - destruct (skip_key key); [eapply IH; eassumption|].
    destruct (typeof_object value); [|eapply IH; eassumption].
    destruct (get value "jcr:content") as [e|content]; [discriminate|].
    rewrite length_app in Hrun. simpl length in Hrun.
    match type of Hrun with context [(?a >=? ?b)%Z] => destruct (Z.geb_spec a b) end.
    + injection Hrun as <-. rewrite length_app. simpl. lia.
    + eapply IH; [exact Hrun|]. rewrite length_app. simpl. lia.
Qed.

(** ** From the operations to their loops *)

Section Runs.

Variable config : gmap string string.
Variable net : client -> request -> outcome.

Ltac run_listing :=
  match goal with
  | |- context [getClient ?cfg] => destruct (getClient cfg) as [?|?c] eqn:Hclient
  end; simpl; [discriminate|];
  unfold send;
  match goal with
  | |- context [net ?c ?r] => destruct (net c r) as [?data|?] eqn:Hnet
  end; simpl; [|discriminate];
  match goal with
  | |- context [Object_entries ?d] => destruct (Object_entries d) as [?|?entries] eqn:Hentries
  end; simpl; [discriminate|];
  match goal with
  | |- match ?r with inl _ => _ | inr _ => _ end = _ -> _ => destruct r eqn:Hloop
  end; simpl; [discriminate|];
  intros [= <- <-]; eauto 10.

Lemma listAssets_inv path limit sent rows :
  listAssets config net path limit = (sent, inr rows) ->
  exists c data entries,
    getClient config = inr c /\
    net c (GET (default "/content/dam" path ++ ".infinity.json")) = Resolved data /\
    Object_entries data = inr entries /\
    listAssets_loop (default "/content/dam" path) (default 20%Z limit) entries [] = inr rows.
Proof. unfold listAssets. run_listing. Qed.

Lemma listPages_inv path limit sent rows :
  listPages config net path limit = (sent, inr rows) ->
  exists c data entries,
    getClient config = inr c /\
    net c (GET (default "/content" path ++ ".1.json")) = Resolved data /\
    Object_entries data = inr entries /\
    listPages_loop (default "/content" path) (default 20%Z limit) entries [] = inr rows.
Proof. unfold listPages. run_listing. Qed.

Lemma listTags_inv namespace sent rows :
  listTags config net namespace = (sent, inr rows) ->
  exists c data entries,
    getClient config = inr c /\
    net c (GET (default "/content/cq:tags" namespace ++ ".1.json")) = Resolved data /\
    Object_entries data = inr entries /\
    listTags_loop (default "/content/cq:tags" namespace) entries [] = inr rows.
Proof. unfold listTags. run_listing. Qed.

(** A configured client whose request is answered with an object runs the
    loop over the object's properties. *)

Lemma listAssets_run c path limit props rows :
  getClient config = inr c ->
  net c (GET (path ++ ".infinity.json")) = Resolved (JObj props) ->
  listAssets_loop path limit props [] = inr rows ->
  listAssets config net (Some path) (Some limit) = ([(c, GET (path ++ ".infinity.json"))], inr rows).
Proof.
  intros Hc Hn Hl. unfold listAssets. simpl. rewrite Hc. simpl. unfold send.
  rewrite Hn. simpl. rewrite Hl. reflexivity.
Qed.

Lemma listPages_run c path limit props rows :
  getClient config = inr c ->
  net c (GET (path ++ ".1.json")) = Resolved (JObj props) ->
  listPages_loop path limit props [] = inr rows ->
  listPages config net (Some path) (Some limit) = ([(c, GET (path ++ ".1.json"))], inr rows).
Proof.
  intros Hc Hn Hl. unfold listPages. simpl. rewrite Hc. simpl. unfold send.
  rewrite Hn. simpl. rewrite Hl. reflexivity.
Qed.

Lemma listTags_run c namespace props rows :
  getClient config = inr c ->
  net c (GET (namespace ++ ".1.json")) = Resolved (JObj props) ->
  listTags_loop namespace props [] = inr rows ->
  listTags config net (Some namespace) = ([(c, GET (namespace ++ ".1.json"))], inr rows).
Proof.
  intros Hc Hn Hl. unfold listTags. simpl. rewrite Hc. simpl. unfold send.
  rewrite Hn. simpl. rewrite Hl. reflexivity.
Qed.

End Runs.

(** ** The credential gate *)

Lemma truthy_str_false (o : option string) :
  truthy_str o = false <-> o = None \/ o = Some EmptyString.
Proof.
  destruct o as [s|]; simpl.
  - rewrite negb_false_iff, String.eqb_eq. split.
    + intros ->. right. reflexivity.
    + intros [H|H]; [discriminate|congruence].
  - split; auto.
Qed.

Lemma isConfigured_false (config : gmap string string) :
  isConfigured config = false <-> credentials_missing config.
Proof.
  unfold isConfigured, credentials_missing.
  rewrite andb_false_iff, !truthy_str_false. tauto.
Qed.

Lemma getClient_not_configured (config : gmap string string) :
  isConfigured config = false -> getClient config = inl (Error NOT_CONFIGURED).
Proof.
  unfold isConfigured, getClient, getConfig. intros H.
  apply andb_false_iff in H as [-> | ->]; simpl; [reflexivity|].
  rewrite orb_true_r. reflexivity.
Qed.

Lemma getClient_configured (config : gmap string string) :
  isConfigured config = true ->
  getClient config =
    inr {| baseURL := str_or (config !! "baseUrl") DEFAULT_BASE_URL;
           auth := (config !! "username", config !! "password");
           headers := [("Accept", "application/json"); ("Content-Type", "application/json")] |}.
Proof.
  unfold isConfigured, getClient, getConfig. intros H.
  apply andb_true_iff in H as [-> ->]. reflexivity.
Qed.

(** C4. When the username or the password is unset or empty, each of the
    nine resource operations (list/get/upload assets, list/get/create
    pages, list/create/delete tags) is rejected with the error whose
    message is "AEM credentials not configured. Run: adobe config set
    --username admin --password admin", and the list of requests it sent
    is empty: it fails before any network request. *)
Theorem unconfigured_operations_fail
    (config : gmap string string) (net : client -> request -> outcome)
    (form_headers : list (string * string)) :
  credentials_missing config ->
  isConfigured config = false /\
  (forall path limit, listAssets config net path limit = not_configured) /\
  (forall assetPath, getAsset config net assetPath = not_configured) /\
  (forall damPath fileName fileContent mimeType,
     uploadAsset config net form_headers damPath fileName fileContent mimeType = not_configured) /\
  (forall path limit, listPages config net path limit = not_configured) /\
  (forall pagePath, getPage config net pagePath = not_configured) /\
  (forall parentPath pageName title template,
     createPage config net parentPath pageName title template = not_configured) /\
  (forall namespace, listTags config net namespace = not_configured) /\
  (forall namespace tagName title description,
     createTag config net namespace tagName title description = not_configured) /\
  (forall tagPath, deleteTag config net tagPath = not_configured).
Proof.
  intros Hmissing. apply isConfigured_false in Hmissing.
  split; [exact Hmissing|]. apply getClient_not_configured in Hmissing.
  repeat split; intros;
    unfold listAssets, getAsset, uploadAsset, listPages, getPage, createPage,
           listTags, createTag, deleteTag;
    rewrite Hmissing; reflexivity.
Qed.

(** The gate at a store that holds a username and no password. *)
Lemma unconfigured_operations_fail_witness :
  credentials_missing (setConfig "username" "admin" ∅) /\
  listAssets (setConfig "username" "admin" ∅) (answer dam_asset) None None = not_configured /\
  deleteTag (setConfig "username" "admin" ∅) (answer dam_asset) "/content/cq:tags/x"
    = not_configured.
Proof.
  assert (H : credentials_missing (setConfig "username" "admin" ∅))
    by (right; right; left; reflexivity).
  split; [exact H|].
  pose proof (unconfigured_operations_fail (setConfig "username" "admin" ∅)
                (answer dam_asset) [] H) as T.
  split; [apply T | apply T].
Defined.

(** ** Object spread *)

Lemma own_cons (k k0 : string) (v : json) (rest : list (string * json)) :
  own k ((k0, v) :: rest) = if String.eqb k0 k then Some v else own k rest.
Proof. reflexivity. Qed.

Lemma own_set_prop (k k' : string) (v : json) (props : list (string * json)) :
  own k (set_prop k' v props) = if String.eqb k' k then Some v else own k props.
Proof.
  induction props as [|[k0 v0] rest IH]; simpl.
  - destruct (String.eqb_spec k' k); reflexivity.
  - destruct (String.eqb_spec k0 k') as [->|Hne]; simpl.
    + destruct (String.eqb_spec k' k); reflexivity.
    + destruct (String.eqb_spec k0 k) as [->|Hne'].
      * destruct (String.eqb_spec k' k); [congruence|reflexivity].
      * exact IH.
Qed.

Lemma own_not_key (k : string) (props : list (string * json)) :
  ~ In k (map fst props) -> own k props = None.
Proof.
  induction props as [|[k0 v0] rest IH]; simpl; [reflexivity|].
  intros Hnot. destruct (String.eqb_spec k0 k) as [->|Hne]; [tauto|].
  apply IH. tauto.
Qed.

(** What a key reads as after [{ ...target, ...{props} }]: the spread
    object's own value when it has one, the target's otherwise. *)
Lemma own_spread (k : string) (props : list (string * json)) : forall target,
  NoDup (map fst props) ->
  own k (spread target (JObj props)) =
    match own k props with Some v => Some v | None => own k target end.
Proof.
  unfold spread. simpl.
  induction props as [|[k0 v0] rest IH]; intros target Hnodup; [reflexivity|].
  simpl in Hnodup. apply NoDup_cons in Hnodup as [Hfresh Hnodup].
  simpl. rewrite IH by exact Hnodup. rewrite own_set_prop.
  destruct (String.eqb_spec k0 k) as [->|Hne]; [|reflexivity].
  rewrite own_not_key; [reflexivity|]. rewrite <- list_elem_of_In. exact Hfresh.
Qed.

Lemma getAsset_run config net c assetPath data :
  getClient config = inr c ->
  net c (GET (assetPath ++ ".infinity.json")) = Resolved data ->
  getAsset config net assetPath =
    ([(c, GET (assetPath ++ ".infinity.json"))], inr (spread [("path", JStr assetPath)] data)).
Proof.
  intros Hc Hn. unfold getAsset. rewrite Hc. simpl. unfold send. rewrite Hn. reflexivity.
Qed.

Lemma getPage_run config net c pagePath data :
  getClient config = inr c ->
  net c (GET (pagePath ++ ".infinity.json")) = Resolved data ->
  getPage config net pagePath =
    ([(c, GET (pagePath ++ ".infinity.json"))], inr (spread [("path", JStr pagePath)] data)).
Proof.
  intros Hc Hn. unfold getPage. rewrite Hc. simpl. unfold send. rewrite Hn. reflexivity.
Qed.

(** C6, counterexample.  The server's document for the asset [/content/dam/a]
    has a property [path] = "/elsewhere"; the object [getAsset] and
    [getPage] return reads "/elsewhere" under [path], not the request
    path: the spread comes after the [path] key and overrides it. *)
Lemma get_keeps_document_path :
  let config := admin_config in
  let net := answer document_with_path in
  exists result,
    snd (getAsset config net "/content/dam/a") = inr result /\
    snd (getPage config net "/content/dam/a") = inr result /\
    own "path" result = Some (JStr "/elsewhere") /\
    own "path" result <> Some (JStr "/content/dam/a").
Proof.
  eexists. repeat split; try reflexivity. simpl. discriminate.
Qed.

(** C6, amended.  For a configured client and a document (a JSON object)
    that the server returns for the request path, [getAsset] and [getPage]
    return an object in which every property of the document reads as in
    the document (a [path] property of the document included), in which
    [path] is the request path when the document has no [path] of its own,
    and which has no other property. *)
Theorem get_passes_document_through
    (config : gmap string string) (net : client -> request -> outcome)
    (c : client) (path : string) (props : list (string * json)) :
  getClient config = inr c ->
  NoDup (map fst props) ->
  net c (GET (path ++ ".infinity.json")) = Resolved (JObj props) ->
  exists result,
    getAsset config net path = ([(c, GET (path ++ ".infinity.json"))], inr result) /\
    getPage config net path = ([(c, GET (path ++ ".infinity.json"))], inr result) /\
    (forall k v, own k props = Some v -> own k result = Some v) /\
    (own "path" props = None -> own "path" result = Some (JStr path)) /\
    (forall k, k <> "path" -> own k props = None -> own k result = None).
Proof.
  intros Hc Hnodup Hn. exists (spread [("path", JStr path)] (JObj props)).
  split; [apply getAsset_run; assumption|].
  split; [apply getPage_run; assumption|].
  repeat split.
  - intros k v Hk. rewrite own_spread, Hk by exact Hnodup. reflexivity.
  - intros Hk. rewrite own_spread, Hk by exact Hnodup. reflexivity.
  - intros k Hne Hk. rewrite own_spread, Hk by exact Hnodup. rewrite own_cons.
    destruct (String.eqb_spec "path" k); [congruence|reflexivity].
Qed.

(** The pass-through at a document without a [path] property. *)
Lemma get_passes_document_through_witness :
  exists result,
    getAsset admin_config (answer dam_asset) "/content/dam/a"
      = ([(admin_client, GET ("/content/dam/a" ++ ".infinity.json"))], inr result) /\
    own "path" result = Some (JStr "/content/dam/a") /\
    own "jcr:primaryType" result = Some (JStr "dam:Asset").
Proof.
  destruct (get_passes_document_through admin_config (answer dam_asset) admin_client
              "/content/dam/a" [("jcr:primaryType", JStr "dam:Asset")])
    as [result (Ha & _ & Hdoc & Hpath & _)].
  - reflexivity.
  - apply NoDup_singleton.
  - reflexivity.
  - exists result. split; [exact Ha|]. split; [apply Hpath; reflexivity|].
    apply Hdoc. reflexivity.
Defined.

(** ** The error mapping *)

Lemma get_opt_error_message (data : json) :
  get_opt (get_opt (Some data) "error") "message" = nested_error_message data.
Proof.
  destruct data as [|b|n|s|items|props]; try reflexivity. simpl.
  destruct (own "error" props) as [[|b|n|s|items|error]|]; reflexivity.
Qed.

Lemma get_opt_message (data : json) : get_opt (Some data) "message" = body_message data.
Proof. destruct data; reflexivity. Qed.

Lemma js_or_usable (a : option json) (b : json) :
  js_or a b = match usable a with Some v => v | None => b end.
Proof. destruct a as [v|]; simpl; [destruct (truthy_value v)|]; reflexivity. Qed.

Lemma api_error_message (config : gmap string string) (msg : string) (status : Z)
    (data : json) (req : bool) :
  status <> 401%Z -> status <> 403%Z -> status <> 404%Z -> status <> 500%Z ->
  handleApiError config (AxiosError msg (Some (status, data)) req) =
    Error ("API Error (" ++ pretty status ++ "): " ++ spec_api_message data).
Proof.
  intros H401 H403 H404 H500. unfold handleApiError. simpl exn_response. cbv beta iota.
  destruct (Z.eqb_spec status 401); [contradiction|].
  destruct (Z.eqb_spec status 403); [contradiction|].
  destruct (Z.eqb_spec status 404); [contradiction|].
  destruct (Z.eqb_spec status 500); [contradiction|].
  rewrite get_opt_error_message, get_opt_message, !js_or_usable.
  unfold spec_api_message.
  destruct (usable (nested_error_message data)); [reflexivity|].
  destruct (usable (body_message data)); reflexivity.
Qed.

(** C5, counterexample.  The body of a 429 response has a nested
    [error.message] field, which is the empty string, and a [message]
    field; the message of the error is taken from the [message] field, not
    from the nested field that is present. *)
Lemma api_error_skips_empty_nested_message :
  let thrown :=
    handleApiError admin_config
      (AxiosError "Request failed with status code 429" (Some (429%Z, empty_nested_message)) true) in
  nested_error_message empty_nested_message = Some (JStr EmptyString) /\
  thrown = Error "API Error (429): quota exceeded" /\
  thrown <> Error ("API Error (429): " ++ to_string (JStr EmptyString)).
Proof. repeat split. discriminate. Qed.

(** C5, amended.  For a rejected request that carries a response,
    [handleApiError] throws "Authentication failed..." for status 401,
    "Access forbidden..." for 403, "Resource not found in AEM." for 404,
    "AEM server error..." for 500, and for any other status
    "API Error (<status>): <message>", where the message is the body's
    nested [error.message] field if that is present and truthy (non-empty),
    else the body's [message] field if that is present and truthy, else
    the serialized body.  For a request without a response it throws a
    message that contains the configured base URL (the default URL when
    none is configured).  Any other exception is thrown again unchanged. *)
Theorem error_mapping (config : gmap string string) :
  (forall msg data req,
     handleApiError config (AxiosError msg (Some (401%Z, data)) req)
       = Error "Authentication failed. Check your AEM credentials.") /\
  (forall msg data req,
     handleApiError config (AxiosError msg (Some (403%Z, data)) req)
       = Error "Access forbidden. Check your AEM user permissions.") /\
  (forall msg data req,
     handleApiError config (AxiosError msg (Some (404%Z, data)) req)
       = Error "Resource not found in AEM.") /\
  (forall msg data req,
     handleApiError config (AxiosError msg (Some (500%Z, data)) req)
       = Error "AEM server error. Check your AEM instance.") /\
  (forall msg status data req,
     status <> 401%Z -> status <> 403%Z -> status <> 404%Z -> status <> 500%Z ->
     handleApiError config (AxiosError msg (Some (status, data)) req)
       = Error ("API Error (" ++ pretty status ++ "): " ++ spec_api_message data)) /\
  (forall msg url,
     config !! "baseUrl" = Some url -> url <> EmptyString ->
     handleApiError config (AxiosError msg None true)
       = Error ("No response from AEM at " ++ url ++ ". Is your AEM instance running?")) /\
  (forall msg,
     config !! "baseUrl" = None ->
     handleApiError config (AxiosError msg None true)
       = Error ("No response from AEM at " ++ DEFAULT_BASE_URL ++ ". Is your AEM instance running?")) /\
  (forall error,
     exn_response error = None -> exn_request error = false ->
     handleApiError config error = error).
Proof.
  repeat split; try reflexivity.
  - intros. apply api_error_message; assumption.
  - intros msg url Hurl Hne. unfold handleApiError, getConfig. simpl. rewrite Hurl. simpl.
    destruct (String.eqb_spec url EmptyString); [contradiction|reflexivity].
  - intros msg Hurl. unfold handleApiError, getConfig. simpl. rewrite Hurl. reflexivity.
  - intros error Hresp Hreq. unfold handleApiError. rewrite Hresp, Hreq. reflexivity.
Qed.

(** The mapping at a 400 response, at an unanswered request and at a
    [TypeError]. *)
Lemma error_mapping_witness :
  let config := setConfig "baseUrl" "http://aem.example:4502" admin_config in
  handleApiError config (AxiosError "Request failed" (Some (400%Z, bad_request_body)) true)
    = Error "API Error (400): Invalid path" /\
  handleApiError config (AxiosError "Network Error" None true)
    = Error "No response from AEM at http://aem.example:4502. Is your AEM instance running?" /\
  handleApiError admin_config (AxiosError "Network Error" None true)
    = Error "No response from AEM at http://localhost:4502. Is your AEM instance running?" /\
  handleApiError config TypeError = TypeError.
Proof.
  intros config.
  destruct (error_mapping config) as (_ & _ & _ & _ & Hother & Hurl & _ & Hrethrow).
  destruct (error_mapping admin_config) as (_ & _ & _ & _ & _ & _ & Hdefault & _).
  split; [apply (Hother "Request failed" 400%Z bad_request_body true); discriminate|].
  split; [apply (Hurl "Network Error" "http://aem.example:4502"); [reflexivity|discriminate]|].
  split; [apply (Hdefault "Network Error"); reflexivity|].
  apply Hrethrow; reflexivity.
Defined.

(** A rejected request reaches the caller through [handleApiError]. *)
Lemma rejected_request_is_mapped config net c path error :
  getClient config = inr c ->
  net c (GET (path ++ ".infinity.json")) = Rejected error ->
  getAsset config net path
    = ([(c, GET (path ++ ".infinity.json"))], inl (handleApiError config error)) /\
  getPage config net path
    = ([(c, GET (path ++ ".infinity.json"))], inl (handleApiError config error)) /\
  listAssets config net (Some path) None
    = ([(c, GET (path ++ ".infinity.json"))], inl (handleApiError config error)).
Proof.
  intros Hc Hn. unfold getAsset, getPage, listAssets. simpl. rewrite Hc. simpl.
  unfold send. rewrite Hn. auto.
Qed.

(** A 404 from a GET surfaces as "Resource not found in AEM.". *)
Example getAsset_not_found :
  snd (getAsset admin_config
         (refuse (AxiosError "Request failed with status code 404" (Some (404%Z, JNull)) true))
         "/content/dam/missing")
    = inl (Error "Resource not found in AEM.").
Proof. reflexivity. Qed.

(** ** Password masking *)

(** [config set --username a --password b], then [config get username]. *)
Example config_set_then_get :
  config_get "username" (fst (config_set (Some "a") (Some "b") None ∅))
    = [console_log [Plain "a"]].
Proof. reflexivity. Qed.

Lemma config_get_password (config : gmap string string) (password : string) :
  config !! "password" = Some password ->
  config_get "password" config = [console_log [Plain MASK]].
Proof. intros H. unfold config_get, getConfig. rewrite H. reflexivity. Qed.

Lemma config_list_insert_password (config : gmap string string) (password : string) :
  password <> EmptyString ->
  config_list (setConfig "password" password config) =
    [ console_log [Chalk bold (Plain (newline ++ "Adobe AEM CLI Configuration" ++ newline))];
      console_log [Plain "Username: ";
                   match config !! "username" with
                   | Some u => if String.eqb u EmptyString then Chalk red (Plain "not set")
                               else Chalk green (Plain u)
                   | None => Chalk red (Plain "not set")
                   end];
      console_log [Plain "Password: "; Chalk green (Plain MASK)];
      console_log [Plain "Base URL: ";
                   match config !! "baseUrl" with
                   | Some b => if String.eqb b EmptyString
                               then Chalk yellow (Plain "using default: http://localhost:4502")
                               else Chalk green (Plain b)
                   | None => Chalk yellow (Plain "using default: http://localhost:4502")
                   end];
      console_log [Plain EmptyString] ].
Proof.
  intros Hne. unfold config_list, getAllConfig, setConfig.
  rewrite lookup_insert_eq.
  rewrite !lookup_insert_ne by discriminate.
  simpl. destruct (String.eqb_spec password EmptyString); [contradiction|reflexivity].
Qed.

(** C9.  With a non-empty password stored, [config get password] prints
    the fixed mask "****" and nothing else, so its output is the same for
    any two stored passwords; [config list] prints the mask on its password
    line and is likewise the same for any two stored passwords; and for
    any store without a base URL the base-URL line of [config list] reads
    "using default: http://localhost:4502". *)
Theorem password_is_masked (config : gmap string string) (p1 p2 : string) :
  p1 <> EmptyString -> p2 <> EmptyString ->
  config_get "password" (setConfig "password" p1 config) = [console_log [Plain MASK]] /\
  config_get "password" (setConfig "password" p1 config)
    = config_get "password" (setConfig "password" p2 config) /\
  config_list (setConfig "password" p1 config) !! 2%nat
    = Some (console_log [Plain "Password: "; Chalk green (Plain MASK)]) /\
  config_list (setConfig "password" p1 config) = config_list (setConfig "password" p2 config) /\
  (config !! "baseUrl" = None ->
   config_list config !! 3%nat
     = Some (console_log [Plain "Base URL: ";
                          Chalk yellow (Plain "using default: http://localhost:4502")])).
Proof.
  intros H1 H2.
  assert (Hget : forall p, config_get "password" (setConfig "password" p config)
                           = [console_log [Plain MASK]]).
  { intros p. apply (config_get_password _ p). unfold setConfig. apply lookup_insert_eq. }
  rewrite !Hget, !config_list_insert_password by assumption.
  repeat split. intros Hbase. unfold config_list, getAllConfig. rewrite Hbase. reflexivity.
Qed.

(** The masking at two stores that differ in the password only. *)
Lemma password_is_masked_witness :
  "admin" <> EmptyString /\ "s3cret" <> EmptyString /\
  config_get "password" (setConfig "password" "s3cret" admin_config) = [console_log [Plain MASK]] /\
  config_list (setConfig "password" "admin" admin_config)
    = config_list (setConfig "password" "s3cret" admin_config) /\
  admin_config !! "baseUrl" = None /\
  config_list admin_config !! 3%nat
    = Some (console_log [Plain "Base URL: ";
                         Chalk yellow (Plain "using default: http://localhost:4502")]).
Proof.
  assert (H1 : "admin" <> EmptyString) by discriminate.
  assert (H2 : "s3cret" <> EmptyString) by discriminate.
  assert (H3 : admin_config !! "baseUrl" = None) by reflexivity.
  destruct (password_is_masked admin_config "admin" "s3cret" H1 H2)
    as (_ & _ & _ & Hlist & Hbase).
  destruct (password_is_masked admin_config "s3cret" "admin" H2 H1) as (Hget & _).
  auto 10.
Defined.

(** ** The listing scenario *)

(** C7.  When the server answers the request for [/content/dam] with
    {"jcr:primaryType":"x", "img1":{"jcr:primaryType":"dam:Asset",
    "jcr:content":{"jcr:title":"Photo"}}}, listing assets at [/content/dam]
    with limit 20 sends that one request and returns exactly one row, with
    name "img1", path "/content/dam/img1", type "dam:Asset", title "Photo",
    mimeType "N/A" (and lastModified "N/A"). *)
Theorem listAssets_photo_scenario
    (config : gmap string string) (net : client -> request -> outcome) (c : client) :
  getClient config = inr c ->
  net c (GET "/content/dam.infinity.json") = Resolved photo_response ->
  listAssets config net (Some "/content/dam") (Some 20%Z)
    = ([(c, GET "/content/dam.infinity.json")], inr [photo_row]).
Proof.
  intros Hc Hn.
  apply (listAssets_run config net c "/content/dam" 20%Z _ [photo_row] Hc Hn).
  reflexivity.
Qed.

(** The scenario with the credentials of the README. *)
Lemma listAssets_photo_scenario_witness :
  getClient admin_config = inr admin_client /\
  answer photo_response admin_client (GET "/content/dam.infinity.json") = Resolved photo_response /\
  listAssets admin_config (answer photo_response) (Some "/content/dam") (Some 20%Z)
    = ([(admin_client, GET "/content/dam.infinity.json")], inr [photo_row]).
Proof.
  split; [reflexivity|]. split; [reflexivity|].
  apply (listAssets_photo_scenario admin_config (answer photo_response) admin_client);
    reflexivity.
Defined.

(** ** Rows and the properties they come from *)

(** C10.  Every row that listing assets, pages or tags returns has
    [path] equal to the request path, a slash and the row's [name], and the
    row's [name] is the key of a property of the document the server
    returned, whatever the property's value contains. *)
Theorem row_path_is_request_path_and_name
    (config : gmap string string) (net : client -> request -> outcome) :
  (forall path limit sent rows,
     listAssets config net path limit = (sent, inr rows) ->
     rows_of_response Asset.name Asset.path net
       (default "/content/dam" path ++ ".infinity.json") (default "/content/dam" path) rows) /\
  (forall path limit sent rows,
     listPages config net path limit = (sent, inr rows) ->
     rows_of_response Page.name Page.path net
       (default "/content" path ++ ".1.json") (default "/content" path) rows) /\
  (forall namespace sent rows,
     listTags config net namespace = (sent, inr rows) ->
     rows_of_response Tag.name Tag.path net
       (default "/content/cq:tags" namespace ++ ".1.json")
       (default "/content/cq:tags" namespace) rows).
Proof.
  repeat split.
  - intros path limit sent rows Hrun.
    apply listAssets_inv in Hrun as (c & data & entries & _ & Hn & He & Hl).
    exists c, data, entries. repeat split; try assumption.
    eapply listAssets_loop_projected in Hl; [|intros kv H; exact H|constructor].
    eapply Forall_impl; [exact Hl|]. intros r (Hp & _ & value & Hin & _). eauto.
  - intros path limit sent rows Hrun.
    apply listPages_inv in Hrun as (c & data & entries & _ & Hn & He & Hl).
    exists c, data, entries. repeat split; try assumption.
    eapply listPages_loop_projected in Hl; [|intros kv H; exact H|constructor].
    eapply Forall_impl; [exact Hl|]. intros r (Hp & _ & value & Hin & _). eauto.
  - intros namespace sent rows Hrun.
    apply listTags_inv in Hrun as (c & data & entries & _ & Hn & He & Hl).
    exists c, data, entries. repeat split; try assumption.
    eapply listTags_loop_projected in Hl; [|intros kv H; exact H|constructor].
    eapply Forall_impl; [exact Hl|]. intros r (Hp & _ & value & Hin & _). eauto.
Qed.

(** The invariant at the scenario's listing. *)
Lemma row_path_is_request_path_and_name_witness :
  listAssets admin_config (answer photo_response) (Some "/content/dam") (Some 20%Z)
    = ([(admin_client, GET "/content/dam.infinity.json")], inr [photo_row]) /\
  rows_of_response Asset.name Asset.path (answer photo_response)
    ("/content/dam" ++ ".infinity.json") "/content/dam" [photo_row].
Proof.
  assert (H : listAssets admin_config (answer photo_response) (Some "/content/dam") (Some 20%Z)
              = ([(admin_client, GET "/content/dam.infinity.json")], inr [photo_row]))
    by reflexivity.
  split; [exact H|].
  exact (proj1 (row_path_is_request_path_and_name admin_config (answer photo_response))
           (Some "/content/dam") (Some 20%Z) _ _ H).
Defined.

(** ** No row from a reserved key *)

Lemma skip_key_false (key : string) : skip_key key = false -> unreserved key.
Proof.
  intros Hs. split.
  - intros rest ->. rewrite skip_key_jcr in Hs. discriminate.
  - intros ->. discriminate.
Qed.

(** C3.  The loops of the three listings give the same result, rows and
    exceptions alike, on a document and on the document without the
    properties whose key starts with [jcr:] or is [rep:policy]; and no row
    a listing returns bears such a key as its name. *)
Theorem reserved_keys_are_skipped
    (config : gmap string string) (net : client -> request -> outcome) :
  (forall path limit entries,
     listAssets_loop path limit (List.filter (fun kv => negb (skip_key (fst kv))) entries) []
       = listAssets_loop path limit entries []) /\
  (forall path limit entries,
     listPages_loop path limit (List.filter (fun kv => negb (skip_key (fst kv))) entries) []
       = listPages_loop path limit entries []) /\
  (forall namespace entries,
     listTags_loop namespace (List.filter (fun kv => negb (skip_key (fst kv))) entries) []
       = listTags_loop namespace entries []) /\
  (forall path limit sent rows,
     listAssets config net path limit = (sent, inr rows) ->
     Forall (fun r => unreserved (Asset.name r)) rows) /\
  (forall path limit sent rows,
     listPages config net path limit = (sent, inr rows) ->
     Forall (fun r => unreserved (Page.name r)) rows) /\
  (forall namespace sent rows,
     listTags config net namespace = (sent, inr rows) ->
     Forall (fun r => unreserved (Tag.name r)) rows).
Proof.
  split; [intros; apply listAssets_loop_skip|].
  split; [intros; apply listPages_loop_skip|].
  split; [intros; apply listTags_loop_skip|].
  repeat split.
  - intros path limit sent rows Hrun.
    apply listAssets_inv in Hrun as (c & data & entries & _ & _ & _ & Hl).
    eapply listAssets_loop_projected in Hl; [|intros kv H; exact H|constructor].
    eapply Forall_impl; [exact Hl|]. intros r (_ & Hs & _). apply skip_key_false, Hs.
  - intros path limit sent rows Hrun.
    apply listPages_inv in Hrun as (c & data & entries & _ & _ & _ & Hl).
    eapply listPages_loop_projected in Hl; [|intros kv H; exact H|constructor].
    eapply Forall_impl; [exact Hl|]. intros r (_ & Hs & _). apply skip_key_false, Hs.
  - intros namespace sent rows Hrun.
    apply listTags_inv in Hrun as (c & data & entries & _ & _ & _ & Hl).
    eapply listTags_loop_projected in Hl; [|intros kv H; exact H|constructor].
    eapply Forall_impl; [exact Hl|]. intros r (_ & Hs & _). apply skip_key_false, Hs.
Qed.

(** The scenario's document has a [jcr:primaryType] property; the one row
    of its listing bears an unreserved name. *)
Lemma reserved_keys_are_skipped_witness :
  listAssets admin_config (answer photo_response) (Some "/content/dam") (Some 20%Z)
    = ([(admin_client, GET "/content/dam.infinity.json")], inr [photo_row]) /\
  Forall (fun r => unreserved (Asset.name r)) [photo_row].
Proof.
  assert (H : listAssets admin_config (answer photo_response) (Some "/content/dam") (Some 20%Z)
              = ([(admin_client, GET "/content/dam.infinity.json")], inr [photo_row]))
    by reflexivity.
  split; [exact H|].
  destruct (reserved_keys_are_skipped admin_config (answer photo_response))
    as (_ & _ & _ & Hassets & _).
  exact (Hassets (Some "/content/dam") (Some 20%Z) _ _ H).
Defined.

(** ** Retention and the limit *)

(** C2, counterexample.  The document has two children, [a] and [b], each
    an object with the primary type "dam:Asset"; with limit 1 the asset
    listing returns the row of [a] only: [b] is an object carrying a
    non-empty [jcr:primaryType] and is not retained. *)
Lemma limit_drops_qualifying_child :
  member two_assets "b" = Some dam_asset /\
  skip_key "b" = false /\
  carries_primaryType dam_asset = true /\
  exists rows,
    snd (listAssets admin_config (answer two_assets) (Some "/content/dam") (Some 1%Z)) = inr rows /\
    map Asset.name rows = ["a"] /\
    ~ In "b" (map Asset.name rows).
Proof.
  split; [reflexivity|]. split; [reflexivity|]. split; [reflexivity|].
  eexists. split; [reflexivity|]. split; [reflexivity|].
  simpl. intros [H|[]]. discriminate.
Qed.

(** A [null] child: [typeof null] is ['object'], and reading a property of
    it throws, so the listing is rejected and [a] is not listed. *)
Lemma null_child_rejects_listing :
  let data := JObj [("a", dam_asset); ("b", JNull)] in
  snd (listAssets admin_config (answer data) (Some "/content/dam") (Some 20%Z)) = inl TypeError /\
  snd (listPages admin_config (answer data) (Some "/content") (Some 20%Z)) = inl TypeError /\
  snd (listTags admin_config (answer data) (Some "/content/cq:tags")) = inl TypeError.
Proof. repeat split. Qed.

(** C2, amended.  For a document none of whose unreserved properties is
    [null] and a limit N of at least one: the asset listing returns, in
    document order, the rows of the first N unreserved children that are
    objects carrying a non-empty (truthy) [jcr:primaryType], and of no
    other property; the page listing returns the rows of the first N
    unreserved children whose value is an object or an array, and the tag
    listing the rows of all of them, with no primary-type requirement. *)
Theorem listings_retain_children
    (config : gmap string string) (net : client -> request -> outcome)
    (c : client) (path : string) (N : Z) (props : list (string * json)) :
  getClient config = inr c ->
  (1 <= N)%Z ->
  no_null_child props ->
  (net c (GET (path ++ ".infinity.json")) = Resolved (JObj props) ->
   exists rows,
     listAssets config net (Some path) (Some N)
       = ([(c, GET (path ++ ".infinity.json"))], inr rows) /\
     map Asset.name rows = firstn (Z.to_nat N) (map fst (List.filter asset_child props))) /\
  (net c (GET (path ++ ".1.json")) = Resolved (JObj props) ->
   (exists rows,
      listPages config net (Some path) (Some N) = ([(c, GET (path ++ ".1.json"))], inr rows) /\
      map Page.name rows = firstn (Z.to_nat N) (map fst (List.filter object_child props))) /\
   (exists rows,
      listTags config net (Some path) = ([(c, GET (path ++ ".1.json"))], inr rows) /\
      map Tag.name rows = map fst (List.filter object_child props))).
Proof.
  intros Hc HN Hnull. split; [|split].
  - intros Hn.
    destruct (listAssets_loop_names path N props [] Hnull) as (rows & Hl & Hnames);
      [simpl; lia|].
    exists rows. split; [eapply listAssets_run; eassumption|].
    rewrite Hnames. simpl. rewrite Nat.sub_0_r. reflexivity.
  - destruct (listPages_loop_names path N props [] Hnull) as (rows & Hl & Hnames);
      [simpl; lia|].
    exists rows. split; [eapply listPages_run; eassumption|].
    rewrite Hnames. simpl. rewrite Nat.sub_0_r. reflexivity.
  - destruct (listTags_loop_names path props [] Hnull) as (rows & Hl & Hnames).
    exists rows. split; [eapply listTags_run; eassumption|].
    rewrite Hnames. reflexivity.
Qed.

(** The retained children of [mixed_folder] with limit 5. *)
Lemma listings_retain_children_witness :
  getClient admin_config = inr admin_client /\
  (1 <= 5)%Z /\
  no_null_child mixed_folder /\
  (exists rows,
     snd (listAssets admin_config (answer (JObj mixed_folder)) (Some "/content/dam") (Some 5%Z))
       = inr rows /\
     map Asset.name rows = ["a"; "b"]) /\
  (exists rows,
     snd (listTags admin_config (answer (JObj mixed_folder)) (Some "/content/dam")) = inr rows /\
     map Tag.name rows = ["list"; "a"; "plain"; "b"]).
Proof.
  assert (Hc : getClient admin_config = inr admin_client) by reflexivity.
  assert (HN : (1 <= 5)%Z) by lia.
  assert (Hnull : no_null_child mixed_folder)
    by (repeat constructor; intros _; discriminate).
  split; [exact Hc|]. split; [exact HN|]. split; [exact Hnull|].
  destruct (listings_retain_children admin_config (answer (JObj mixed_folder)) admin_client
              "/content/dam" 5%Z mixed_folder Hc HN Hnull) as (Hassets & Htags).
  split.
  - destruct (Hassets eq_refl) as (rows & Hrun & Hnames).
    exists rows. rewrite Hrun. split; [reflexivity|exact Hnames].
  - destruct (Htags eq_refl) as (_ & rows & Hrun & Hnames).
    exists rows. rewrite Hrun. split; [reflexivity|exact Hnames].
Defined.

(** From a limit of one upwards the asset and page listings return at most
    [limit] rows. *)
Lemma listing_at_most (config : gmap string string) (net : client -> request -> outcome)
    (path : option string) (N : Z) :
  (1 <= N)%Z ->
  (forall sent rows,
     listAssets config net path (Some N) = (sent, inr rows) -> (Z.of_nat (length rows) <= N)%Z) /\
  (forall sent rows,
     listPages config net path (Some N) = (sent, inr rows) -> (Z.of_nat (length rows) <= N)%Z).
Proof.
  intros HN. split; intros sent rows Hrun.
  - apply listAssets_inv in Hrun as (c & data & entries & _ & _ & _ & Hl).
    eapply listAssets_loop_length; [exact Hl|simpl; lia].
  - apply listPages_inv in Hrun as (c & data & entries & _ & _ & _ & Hl).
    eapply listPages_loop_length; [exact Hl|simpl; lia].
Qed.

(** C1, at the failing input.  With limit 0 and a document that has one
    child, listing assets returns one row and listing pages returns one
    row: the limit is compared with the number of rows only after a row has
    been pushed. *)
Theorem limit_zero_returns_a_row :
  (exists rows,
     snd (listAssets admin_config (answer one_asset) (Some "/content/dam") (Some 0%Z)) = inr rows /\
     length rows = 1%nat) /\
  (exists rows,
     snd (listPages admin_config (answer one_asset) (Some "/content") (Some 0%Z)) = inr rows /\
     length rows = 1%nat).
Proof. split; eexists; split; reflexivity. Qed.

(** ** Creating a page *)

Lemma createPage_run config net c parentPath pageName title template data :
  getClient config = inr c ->
  (forall r, net c r = Resolved data) ->
  createPage config net parentPath pageName title template =
    ([(c, POST parentPath
            (UrlEncoded [ ("_charset_", "utf-8");
                          (":name", pageName);
                          ("jcr:primaryType", "cq:Page");
                          ("jcr:content/jcr:primaryType", "cq:PageContent");
                          ("jcr:content/jcr:title", title);
                          ("jcr:content/cq:template",
                           str_or template "/libs/wcm/foundation/templates/page") ])
            [("Content-Type", "application/x-www-form-urlencoded")])],
     inr {| CreatedPage.path := parentPath ++ "/" ++ pageName;
            CreatedPage.title := title;
            CreatedPage.template := template |}).
Proof.
  intros Hc Hn. unfold createPage. rewrite Hc. simpl. unfold send. rewrite Hn. reflexivity.
Qed.

(** C8, at the failing input.  Creating the page [about] under
    [/content/site] without a template argument posts the default template
    "/libs/wcm/foundation/templates/page" and returns an object with the
    joined path and the title whose [template] is undefined, not the
    default. *)
Theorem createPage_returns_template_argument :
  createPage admin_config (answer (JStr "created")) "/content/site" "about" "About us" None =
    ([(admin_client,
       POST "/content/site"
         (UrlEncoded [ ("_charset_", "utf-8");
                       (":name", "about");
                       ("jcr:primaryType", "cq:Page");
                       ("jcr:content/jcr:primaryType", "cq:PageContent");
                       ("jcr:content/jcr:title", "About us");
                       ("jcr:content/cq:template", "/libs/wcm/foundation/templates/page") ])
         [("Content-Type", "application/x-www-form-urlencoded")])],
     inr {| CreatedPage.path := "/content/site/about";
            CreatedPage.title := "About us";
            CreatedPage.template := None |}).
Proof. reflexivity. Qed.

(** * Further properties of the configuration commands *)

Lemma config_set_effect (username password baseUrl : option string)
    (config : gmap string string) :
  config_set username password baseUrl config =
    (set_if_provided "baseUrl" baseUrl
       (set_if_provided "password" password (set_if_provided "username" username config)),
     (said_if_provided username (fun _ => "Username set")
      ++ said_if_provided password (fun _ => "Password set")
      ++ said_if_provided baseUrl (fun v => ("Base URL set to: " ++ v)%string)
      ++ match provided username, provided password, provided baseUrl with
         | None, None, None =>
             printError "No options provided. Use --username, --password, or --base-url"
         | _, _, _ => []
         end)%list).
Proof.
  unfold config_set, set_if_provided, said_if_provided, provided, truthy_str, setConfig.
  destruct username as [u|]; [destruct (String.eqb u EmptyString)|];
    (destruct password as [p|]; [destruct (String.eqb p EmptyString)|]);
    (destruct baseUrl as [b|]; [destruct (String.eqb b EmptyString)|]);
    reflexivity.
Qed.

Lemma provided_some (v : string) : v <> EmptyString -> provided (Some v) = Some v.
Proof. intros H. simpl. destruct (String.eqb_spec v EmptyString); [contradiction|reflexivity]. Qed.

Lemma set_if_provided_other (key k : string) (o : option string) (config : gmap string string) :
  key <> k -> set_if_provided key o config !! k = config !! k.
Proof.
  intros H. unfold set_if_provided. destruct (provided o); [|reflexivity].
  apply lookup_insert_ne. exact H.
Qed.

Lemma set_if_provided_same (key : string) (o : option string) (config : gmap string string) :
  set_if_provided key o config !! key =
    match provided o with Some v => Some v | None => config !! key end.
Proof.
  unfold set_if_provided. destruct (provided o); [apply lookup_insert_eq|reflexivity].
Qed.


(** X1.  Round trip of [config set] and [config get]: a non-empty
    [--username] is what [config get username] prints afterwards, a
    non-empty [--base-url] is what [config get baseUrl] prints, and a
    non-empty [--password] is stored as given, whatever the other options
    and the store before. *)
Theorem config_set_then_get_round_trip
    (config : gmap string string) (username password baseUrl : option string) (v : string) :
  v <> EmptyString ->
  config_get "username" (fst (config_set (Some v) password baseUrl config))
    = [console_log [Plain v]] /\
  config_get "baseUrl" (fst (config_set username password (Some v) config))
    = [console_log [Plain v]] /\
  getConfig (fst (config_set username (Some v) baseUrl config)) "password" = Some v.
Proof.
  intros Hv. rewrite !config_set_effect. unfold config_get, getConfig. simpl fst.
  repeat split.
  - rewrite !set_if_provided_other by discriminate.
    rewrite set_if_provided_same, provided_some by exact Hv. reflexivity.
  - rewrite set_if_provided_same, provided_some by exact Hv. reflexivity.
  - rewrite set_if_provided_other by discriminate.
    rewrite set_if_provided_same, provided_some by exact Hv. reflexivity.
Qed.

(** The round trip at the README's base URL. *)
Lemma config_set_then_get_round_trip_witness :
  "http://localhost:4502" <> EmptyString /\
  config_get "baseUrl" (fst (config_set None None (Some "http://localhost:4502") admin_config))
    = [console_log [Plain "http://localhost:4502"]].
Proof.
  assert (H : "http://localhost:4502" <> EmptyString) by discriminate.
  split; [exact H|].
  apply (config_set_then_get_round_trip admin_config None None None "http://localhost:4502" H).
Defined.



Lemma said_if_provided_logs (o : option string) (message : string -> string) :
  Forall (fun line => exists args, line = console_log args) (said_if_provided o message).
Proof.
  unfold said_if_provided, printSuccess. destruct (provided o); repeat constructor. eauto.
Qed.

(** X3.  [config set] without a usable option (each one left out or empty)
    leaves the store as it is and prints the one error line "No options
    provided..."; with at least one usable option it prints something, and
    only success lines: nothing goes to [console.error]. *)
Theorem config_set_reports
    (config : gmap string string) (username password baseUrl : option string) :
  (provided username = None -> provided password = None -> provided baseUrl = None ->
   config_set username password baseUrl config
     = (config, printError "No options provided. Use --username, --password, or --base-url")) /\
  (provided username <> None \/ provided password <> None \/ provided baseUrl <> None ->
   snd (config_set username password baseUrl config) <> [] /\
   Forall (fun line => exists args, line = console_log args)
     (snd (config_set username password baseUrl config))).
Proof.
  rewrite config_set_effect. split.
  - intros Hu Hp Hb. unfold set_if_provided, said_if_provided. rewrite Hu, Hp, Hb. reflexivity.
  - intros Hsome. simpl snd. split.
    + unfold said_if_provided, printSuccess.
      destruct (provided username), (provided password), (provided baseUrl);
        discriminate.
    + rewrite !Forall_app. repeat split; try apply said_if_provided_logs.
      destruct (provided username), (provided password), (provided baseUrl);
        first [apply Forall_nil_2 | exfalso; destruct Hsome as [H|[H|H]]; congruence].
Qed.

(** Both cases of the report, at an empty and at a given username. *)
Lemma config_set_reports_witness :
  config_set (Some EmptyString) None None admin_config
    = (admin_config, printError "No options provided. Use --username, --password, or --base-url") /\
  snd (config_set (Some "author") None None admin_config) <> [].
Proof.
  destruct (config_set_reports admin_config (Some EmptyString) None None) as (Hnone & _).
  destruct (config_set_reports admin_config (Some "author") None None) as (_ & Hsome).
  split.
  - apply Hnone; reflexivity.
  - apply Hsome. left. discriminate.
Defined.

(** X4.  [config set] never echoes the password: what it prints is the
    same for any two non-empty passwords, whatever the stores. *)
Theorem config_set_hides_password
    (config1 config2 : gmap string string) (username baseUrl : option string) (p1 p2 : string) :
  p1 <> EmptyString -> p2 <> EmptyString ->
  snd (config_set username (Some p1) baseUrl config1)
    = snd (config_set username (Some p2) baseUrl config2).
Proof.
  intros H1 H2. rewrite !config_set_effect. cbn [snd].
  unfold said_if_provided. rewrite !provided_some by assumption. reflexivity.
Qed.

(** Two passwords, two stores, one output. *)
Lemma config_set_hides_password_witness :
  "admin" <> EmptyString /\ "s3cret" <> EmptyString /\
  snd (config_set (Some "author") (Some "admin") None ∅)
    = snd (config_set (Some "author") (Some "s3cret") None admin_config).
Proof.
  assert (H1 : "admin" <> EmptyString) by discriminate.
  assert (H2 : "s3cret" <> EmptyString) by discriminate.
  split; [exact H1|]. split; [exact H2|].
  apply (config_set_hides_password ∅ admin_config (Some "author") None "admin" "s3cret" H1 H2).
Defined.

(** * The two gates *)

Lemma truthy_str_true (o : option string) :
  truthy_str o = true <-> exists v, o = Some v /\ v <> EmptyString.
Proof.
  destruct o as [s|]; simpl.
  - rewrite negb_true_iff. split.
    + intros H. exists s. split; [reflexivity|]. intros ->. discriminate.
    + intros (v & [= <-] & Hne). destruct (String.eqb_spec s EmptyString); [contradiction|reflexivity].
  - split; [discriminate|]. intros (v & H & _). discriminate.
Qed.

Lemma str_or_provided (o : option string) (d : string) :
  str_or o d = default d (provided o).
Proof. destruct o as [s|]; simpl; [destruct (String.eqb s EmptyString)|]; reflexivity. Qed.

(** X5.  The gate of the CLI and the gate of the API layer agree:
    [getClient] returns a client exactly when [isConfigured] holds.  The
    client then authenticates with the stored, non-empty username and
    password, targets the stored base URL if there is a non-empty one and
    "http://localhost:4502" otherwise, and asks for JSON. *)
Theorem gates_agree (config : gmap string string) :
  (isConfigured config = true <-> exists c, getClient config = inr c) /\
  (forall c, getClient config = inr c ->
     exists u p,
       config !! "username" = Some u /\ u <> EmptyString /\
       config !! "password" = Some p /\ p <> EmptyString /\
       auth c = (Some u, Some p) /\
       baseURL c = default "http://localhost:4502" (provided (config !! "baseUrl")) /\
       headers c = [("Accept", "application/json"); ("Content-Type", "application/json")]).
Proof.
  split.
  - split.
    + intros H. eexists. apply getClient_configured. exact H.
    + intros [c Hc]. destruct (isConfigured config) eqn:H; [reflexivity|].
      rewrite getClient_not_configured in Hc by exact H. discriminate.
  - intros c Hc. destruct (isConfigured config) eqn:H.
    + rewrite getClient_configured in Hc by exact H. injection Hc as <-.
      apply andb_true_iff in H as [Hu Hp].
      apply truthy_str_true in Hu as (u & Hu & Hune).
      apply truthy_str_true in Hp as (p & Hp & Hpne).
      exists u, p. simpl. rewrite Hu, Hp, str_or_provided. auto 10.
    + rewrite getClient_not_configured in Hc by exact H. discriminate.
Qed.

(** The client of the README's credentials. *)
Lemma gates_agree_witness :
  getClient admin_config = inr admin_client /\
  auth admin_client = (Some "admin", Some "admin") /\
  baseURL admin_client = "http://localhost:4502".
Proof.
  assert (H : getClient admin_config = inr admin_client) by reflexivity.
  split; [exact H|].
  destruct (proj2 (gates_agree admin_config) admin_client H)
    as (u & p & Hu & _ & Hp & _ & Hauth & Hurl & _).
  split; [|exact Hurl].
  rewrite Hauth. f_equal; [rewrite <- Hu | rewrite <- Hp]; reflexivity.
Defined.

(** X6.  After [config set] with a non-empty username and a non-empty
    password the gate is open, whatever the store held: [getClient]
    returns a client with these credentials, whose base URL is the one
    given, else the one stored before, else the default. *)
Theorem config_set_opens_gate
    (config : gmap string string) (u p : string) (baseUrl : option string) :
  u <> EmptyString -> p <> EmptyString ->
  let config' := fst (config_set (Some u) (Some p) baseUrl config) in
  isConfigured config' = true /\
  getClient config' =
    inr {| baseURL :=
             match provided baseUrl with
             | Some url => url
             | None => default "http://localhost:4502" (provided (config !! "baseUrl"))
             end;
           auth := (Some u, Some p);
           headers := [("Accept", "application/json"); ("Content-Type", "application/json")] |}.
Proof.
  intros Hu Hp. cbv zeta. rewrite config_set_effect. simpl fst.
  assert (Huser : set_if_provided "baseUrl" baseUrl
                    (set_if_provided "password" (Some p)
                       (set_if_provided "username" (Some u) config)) !! "username" = Some u).
  { rewrite !set_if_provided_other by discriminate.
    rewrite set_if_provided_same, provided_some by exact Hu. reflexivity. }
  assert (Hpass : set_if_provided "baseUrl" baseUrl
                    (set_if_provided "password" (Some p)
                       (set_if_provided "username" (Some u) config)) !! "password" = Some p).
  { rewrite set_if_provided_other by discriminate.
    rewrite set_if_provided_same, provided_some by exact Hp. reflexivity. }
  assert (Hconf : isConfigured
                    (set_if_provided "baseUrl" baseUrl
                       (set_if_provided "password" (Some p)
                          (set_if_provided "username" (Some u) config))) = true).
  { unfold isConfigured. rewrite Huser, Hpass. apply andb_true_iff.
    split; apply truthy_str_true; eauto. }
  split; [exact Hconf|].
  rewrite getClient_configured by exact Hconf. rewrite Huser, Hpass, str_or_provided.
  do 2 f_equal. rewrite set_if_provided_same.
  destruct (provided baseUrl) as [url|] eqn:Hb.
  - simpl. destruct (String.eqb_spec url EmptyString) as [->|]; [|reflexivity].
    destruct baseUrl as [b|]; simpl in Hb; [|discriminate].
    destruct (String.eqb_spec b EmptyString); [discriminate|congruence].
  - rewrite !set_if_provided_other by discriminate. reflexivity.
Qed.

(** The gate after configuring an empty store. *)
Lemma config_set_opens_gate_witness :
  "admin" <> EmptyString /\
  getClient (fst (config_set (Some "admin") (Some "admin") None ∅)) = inr admin_client.
Proof.
  assert (H : "admin" <> EmptyString) by discriminate.
  split; [exact H|].
  exact (proj2 (config_set_opens_gate ∅ "admin" "admin" None H H)).
Defined.

(** * Further properties of the operations *)

Section Operations.

Variable config : gmap string string.
Variable net : client -> request -> outcome.
Variable form_headers : list (string * string).

Ltac run_op :=
  unfold listAssets, getAsset, uploadAsset, listPages, getPage, createPage,
         listTags, createTag, deleteTag;
  destruct (getClient config) as [?|?c]; simpl;
  [|unfold send;
    match goal with |- context [net ?c ?r] => destruct (net c r) as [?data|?] end; simpl;
    try match goal with
        | |- context [match ?x with inl _ => _ | inr _ => _ end] => destruct x
        end; simpl].

(** X7.  An operation sends at most one request, whatever the store and
    whatever the server answers: nothing is retried, and a listing does
    not fetch its children one by one. *)
Theorem at_most_one_request :
  (forall path limit, (length (fst (listAssets config net path limit)) <= 1)%nat) /\
  (forall assetPath, (length (fst (getAsset config net assetPath)) <= 1)%nat) /\
  (forall damPath fileName fileContent mimeType,
     (length (fst (uploadAsset config net form_headers damPath fileName fileContent mimeType))
      <= 1)%nat) /\
  (forall path limit, (length (fst (listPages config net path limit)) <= 1)%nat) /\
  (forall pagePath, (length (fst (getPage config net pagePath)) <= 1)%nat) /\
  (forall parentPath pageName title template,
     (length (fst (createPage config net parentPath pageName title template)) <= 1)%nat) /\
  (forall namespace, (length (fst (listTags config net namespace)) <= 1)%nat) /\
  (forall namespace tagName title description,
     (length (fst (createTag config net namespace tagName title description)) <= 1)%nat) /\
  (forall tagPath, (length (fst (deleteTag config net tagPath)) <= 1)%nat).
Proof. repeat split; intros; run_op; simpl; lia. Qed.

Lemma handleApiError_plain (error : exn) :
  exn_response (handleApiError config error) = None /\
  exn_request (handleApiError config error) = false.
Proof.
  unfold handleApiError.
  destruct (exn_response error) as [[status data]|] eqn:Hresp.
  - repeat match goal with |- context [(?a =? ?b)%Z] => destruct (a =? b)%Z end; auto.
  - destruct (exn_request error) eqn:Hreq; auto.
Qed.

(** X8.  No operation lets a raw HTTP failure through: the exception an
    operation is rejected with never carries a response or a request, so
    it is the not-configured error, one of the messages of
    [handleApiError], or an exception that was not an HTTP failure. *)
Theorem rejections_are_handled :
  (forall path limit sent e,
     listAssets config net path limit = (sent, inl e) ->
     exn_response e = None /\ exn_request e = false) /\
  (forall assetPath sent e,
     getAsset config net assetPath = (sent, inl e) ->
     exn_response e = None /\ exn_request e = false) /\
  (forall damPath fileName fileContent mimeType sent e,
     uploadAsset config net form_headers damPath fileName fileContent mimeType = (sent, inl e) ->
     exn_response e = None /\ exn_request e = false) /\
  (forall path limit sent e,
     listPages config net path limit = (sent, inl e) ->
     exn_response e = None /\ exn_request e = false) /\
  (forall pagePath sent e,
     getPage config net pagePath = (sent, inl e) ->
     exn_response e = None /\ exn_request e = false) /\
  (forall parentPath pageName title template sent e,
     createPage config net parentPath pageName title template = (sent, inl e) ->
     exn_response e = None /\ exn_request e = false) /\
  (forall namespace sent e,
     listTags config net namespace = (sent, inl e) ->
     exn_response e = None /\ exn_request e = false) /\
  (forall namespace tagName title description sent e,
     createTag config net namespace tagName title description = (sent, inl e) ->
     exn_response e = None /\ exn_request e = false) /\
  (forall tagPath sent e,
     deleteTag config net tagPath = (sent, inl e) ->
     exn_response e = None /\ exn_request e = false).
Proof.
  repeat match goal with |- _ /\ _ => split end; intros until e; run_op;
    intros [= <- <-] || discriminate; apply handleApiError_plain.
Qed.

End Operations.

(** A server error with a body reaches the caller of [getPage] as a plain
    error. *)
Lemma rejections_are_handled_witness :
  let net := refuse (AxiosError "Request failed" (Some (503%Z, JObj [("message", JStr "Service Unavailable")])) true) in
  getPage admin_config net "/content/site"
    = ([(admin_client, GET "/content/site.infinity.json")],
       inl (Error "API Error (503): Service Unavailable")) /\
  exn_response (Error "API Error (503): Service Unavailable") = None /\
  exn_request (Error "API Error (503): Service Unavailable") = false.
Proof.
  intros net.
  assert (H : getPage admin_config net "/content/site"
              = ([(admin_client, GET "/content/site.infinity.json")],
                 inl (Error "API Error (503): Service Unavailable"))) by reflexivity.
  split; [exact H|].
  destruct (rejections_are_handled admin_config net []) as (_ & _ & _ & _ & Hpage & _).
  exact (Hpage _ _ _ H).
Defined.

Lemma param_set_prop (k k' v : string) (l : list (string * string)) :
  param k (set_prop k' v l) = if String.eqb k' k then Some v else param k l.
Proof.
  induction l as [|[k0 v0] rest IH]; simpl.
  - destruct (String.eqb_spec k' k); reflexivity.
  - destruct (String.eqb_spec k0 k') as [->|Hne]; simpl.
    + destruct (String.eqb_spec k' k); reflexivity.
    + destruct (String.eqb_spec k0 k) as [->|Hne'].
      * destruct (String.eqb_spec k' k); [congruence|reflexivity].
      * exact IH.
Qed.

(** X9.  When the server rejects the request of a configured client, each
    of the nine operations has sent exactly its one request (a GET of the
    path with [.infinity.json] or [.1.json] appended, a POST to
    [<damPath>.createasset.html], to the parent path or to
    [<namespace>/<tagName>], a DELETE of the tag path) and is rejected with
    what [handleApiError] makes of the rejection. *)
Theorem rejected_requests_are_mapped
    (config : gmap string string) (net : client -> request -> outcome)
    (form_headers : list (string * string)) (c : client) (error : exn) :
  getClient config = inr c ->
  (forall r, net c r = Rejected error) ->
  let failed {A} (r : request) : M A := ([(c, r)], inl (handleApiError config error)) in
  (forall path limit,
     listAssets config net (Some path) limit = failed (GET (path ++ ".infinity.json"))) /\
  (forall assetPath,
     getAsset config net assetPath = failed (GET (assetPath ++ ".infinity.json"))) /\
  (forall damPath fileName fileContent mimeType,
     uploadAsset config net form_headers damPath fileName fileContent mimeType
       = failed (POST (damPath ++ ".createasset.html")
                   (Multipart [ FilePart "file" fileContent fileName
                                  (default "application/octet-stream" mimeType);
                                FieldPart "fileName" fileName ])
                   (set_prop "Accept" "application/json" form_headers))) /\
  (forall path limit,
     listPages config net (Some path) limit = failed (GET (path ++ ".1.json"))) /\
  (forall pagePath,
     getPage config net pagePath = failed (GET (pagePath ++ ".infinity.json"))) /\
  (forall parentPath pageName title template,
     exists params,
       createPage config net parentPath pageName title template
         = failed (POST parentPath (UrlEncoded params) FORM_HEADERS)) /\
  (forall namespace,
     listTags config net (Some namespace) = failed (GET (namespace ++ ".1.json"))) /\
  (forall namespace tagName title description,
     exists params,
       createTag config net namespace tagName title description
         = failed (POST (namespace ++ "/" ++ tagName) (UrlEncoded params) FORM_HEADERS)) /\
  (forall tagPath,
     deleteTag config net tagPath = failed (DELETE tagPath FORM_HEADERS)).
Proof.
  intros Hc Hn failed. subst failed.
  repeat match goal with |- _ /\ _ => split end; intros;
    unfold listAssets, getAsset, uploadAsset, listPages, getPage, createPage,
           listTags, createTag, deleteTag;
    simpl; rewrite Hc; simpl; unfold send; rewrite Hn; simpl;
    try reflexivity; eexists; reflexivity.
Qed.

(** A 404 for a page that does not exist. *)
Lemma rejected_requests_are_mapped_witness :
  let net := refuse (AxiosError "Request failed with status code 404" (Some (404%Z, JNull)) true) in
  getClient admin_config = inr admin_client /\
  getPage admin_config net "/content/missing"
    = ([(admin_client, GET ("/content/missing" ++ ".infinity.json"))],
       inl (Error "Resource not found in AEM.")).
Proof.
  intros net.
  assert (Hc : getClient admin_config = inr admin_client) by reflexivity.
  split; [exact Hc|].
  destruct (rejected_requests_are_mapped admin_config net [] admin_client
              (AxiosError "Request failed with status code 404" (Some (404%Z, JNull)) true)
              Hc (fun _ => eq_refl)) as (_ & _ & _ & _ & Hpage & _).
  exact (Hpage "/content/missing").
Defined.

(** X10.  The form [createTag] posts, whatever the server answers: it goes
    to [<namespace>/<tagName>], names the charset, the primary type
    [cq:Tag] and the title, and has a [jcr:description] field exactly when
    the description is given and not empty.  When the server accepts it,
    the result is built from the arguments: the joined path, the name, the
    title and the description as passed. *)
Theorem createTag_posts_form
    (config : gmap string string) (net : client -> request -> outcome) (c : client)
    (namespace tagName title : string) (description : option string) :
  getClient config = inr c ->
  exists params,
    fst (createTag config net namespace tagName title description)
      = [(c, POST (namespace ++ "/" ++ tagName) (UrlEncoded params) FORM_HEADERS)] /\
    param "_charset_" params = Some "utf-8" /\
    param "jcr:primaryType" params = Some "cq:Tag" /\
    param "jcr:title" params = Some title /\
    param "jcr:description" params = provided description /\
    (forall data,
       net c (POST (namespace ++ "/" ++ tagName) (UrlEncoded params) FORM_HEADERS) = Resolved data ->
       snd (createTag config net namespace tagName title description)
         = inr {| CreatedTag.path := namespace ++ "/" ++ tagName;
                  CreatedTag.name := tagName;
                  CreatedTag.title := title;
                  CreatedTag.description := description |}).
Proof.
  intros Hc. unfold createTag. rewrite Hc. simpl. unfold send.
  eexists. split.
  - match goal with |- context [net ?c ?r] => destruct (net c r) end; reflexivity.
  - repeat split.
    + destruct description as [d|]; simpl; [destruct (String.eqb d EmptyString)|]; reflexivity.
    + intros data Hn. unfold FORM_HEADERS in Hn. rewrite Hn. reflexivity.
Qed.

(** The form for a tag without a description. *)
Lemma createTag_posts_form_witness :
  getClient admin_config = inr admin_client /\
  exists params,
    fst (createTag admin_config (answer JNull) "/content/cq:tags/site" "featured" "Featured" None)
      = [(admin_client, POST ("/content/cq:tags/site" ++ "/" ++ "featured")
                          (UrlEncoded params) FORM_HEADERS)] /\
    param "jcr:description" params = None.
Proof.
  assert (Hc : getClient admin_config = inr admin_client) by reflexivity.
  split; [exact Hc|].
  destruct (createTag_posts_form admin_config (answer JNull) admin_client
              "/content/cq:tags/site" "featured" "Featured" None Hc)
    as (params & Hsent & _ & _ & _ & Hd & _).
  exists params. split; [exact Hsent|exact Hd].
Defined.

(** X11.  The form [createPage] posts, whatever the server answers: it
    goes to the parent path itself, carries the page name under [:name],
    the primary types [cq:Page] and [cq:PageContent], the title, and as
    template the argument when it is given and not empty, else
    "/libs/wcm/foundation/templates/page". *)
Theorem createPage_posts_form
    (config : gmap string string) (net : client -> request -> outcome) (c : client)
    (parentPath pageName title : string) (template : option string) :
  getClient config = inr c ->
  exists params,
    fst (createPage config net parentPath pageName title template)
      = [(c, POST parentPath (UrlEncoded params) FORM_HEADERS)] /\
    param "_charset_" params = Some "utf-8" /\
    param ":name" params = Some pageName /\
    param "jcr:primaryType" params = Some "cq:Page" /\
    param "jcr:content/jcr:primaryType" params = Some "cq:PageContent" /\
    param "jcr:content/jcr:title" params = Some title /\
    param "jcr:content/cq:template" params
      = Some (default "/libs/wcm/foundation/templates/page" (provided template)).
Proof.
  intros Hc. unfold createPage. rewrite Hc. simpl. unfold send.
  eexists. split.
  - match goal with |- context [net ?c ?r] => destruct (net c r) end; reflexivity.
  - repeat split. simpl. rewrite str_or_provided. reflexivity.
Qed.

(** The form for a page with an empty template option. *)
Lemma createPage_posts_form_witness :
  getClient admin_config = inr admin_client /\
  exists params,
    fst (createPage admin_config (answer JNull) "/content/site" "about" "About us"
           (Some EmptyString))
      = [(admin_client, POST "/content/site" (UrlEncoded params) FORM_HEADERS)] /\
    param "jcr:content/cq:template" params = Some "/libs/wcm/foundation/templates/page".
Proof.
  assert (Hc : getClient admin_config = inr admin_client) by reflexivity.
  split; [exact Hc|].
  destruct (createPage_posts_form admin_config (answer JNull) admin_client
              "/content/site" "about" "About us" (Some EmptyString) Hc)
    as (params & Hsent & _ & _ & _ & _ & _ & Ht).
  exists params. split; [exact Hsent|exact Ht].
Defined.

(** X12.  [uploadAsset] posts one multipart form to
    [<damPath>.createasset.html], with the content as the part [file]
    (under the file name, with the given MIME type or
    "application/octet-stream") and the file name as the field [fileName];
    its [Accept] header is "application/json" whatever the form's own
    headers say, and the other headers are the form's.  When the server
    accepts it, the result is the server's body, unchanged. *)
Theorem uploadAsset_posts_file
    (config : gmap string string) (net : client -> request -> outcome)
    (form_headers : list (string * string)) (c : client)
    (damPath fileName fileContent : string) (mimeType : option string) :
  getClient config = inr c ->
  exists hdrs,
    let r := POST (damPath ++ ".createasset.html")
               (Multipart [ FilePart "file" fileContent fileName
                              (default "application/octet-stream" mimeType);
                            FieldPart "fileName" fileName ]) hdrs in
    fst (uploadAsset config net form_headers damPath fileName fileContent mimeType) = [(c, r)] /\
    param "Accept" hdrs = Some "application/json" /\
    (forall k, k <> "Accept" -> param k hdrs = param k form_headers) /\
    (forall data,
       net c r = Resolved data ->
       snd (uploadAsset config net form_headers damPath fileName fileContent mimeType)
         = inr data).
Proof.
  intros Hc. unfold uploadAsset. rewrite Hc. simpl. unfold send.
  exists (set_prop "Accept" "application/json" form_headers). cbv zeta.
  split; [|split; [|split]].
  - match goal with |- context [net ?c ?r] => destruct (net c r) end; reflexivity.
  - rewrite param_set_prop. reflexivity.
  - intros k Hk. rewrite param_set_prop.
    destruct (String.eqb_spec "Accept" k); [congruence|reflexivity].
  - intros data Hn. rewrite Hn. reflexivity.
Qed.

(** An upload whose form headers bring an [Accept] of their own. *)
Lemma uploadAsset_posts_file_witness :
  getClient admin_config = inr admin_client /\
  snd (uploadAsset admin_config (answer (JStr "created"))
         [("content-type", "multipart/form-data; boundary=x"); ("Accept", "text/html")]
         "/content/dam/site" "photo.jpg" "bytes" None)
    = inr (JStr "created").
Proof.
  assert (Hc : getClient admin_config = inr admin_client) by reflexivity.
  split; [exact Hc|].
  destruct (uploadAsset_posts_file admin_config (answer (JStr "created"))
              [("content-type", "multipart/form-data; boundary=x"); ("Accept", "text/html")]
              admin_client "/content/dam/site" "photo.jpg" "bytes" None Hc)
    as (hdrs & _ & _ & _ & Hok).
  apply Hok. reflexivity.
Defined.

(** * Further properties of the listings *)

Lemma listAssets_loop_below_one path limit entries :
  no_null_child entries ->
  (limit < 1)%Z ->
  exists rows,
    listAssets_loop path limit entries [] = inr rows /\
    map Asset.name rows = firstn 1 (map fst (List.filter asset_child entries)).
Proof.
  intros Hnull Hlimit. induction entries as [|[key value] rest IH].
  - exists []. auto.
  - apply Forall_cons in Hnull as [Hv Hnull]. unfold reserved in Hv. simpl in Hv.
    specialize (IH Hnull).
    simpl. unfold asset_child at 1, reserved. simpl.
    destruct (skip_key key) eqn:Hs; simpl; [exact IH|].
    specialize (Hv eq_refl).
    destruct value as [|b|n|s|items|props]; simpl; try exact IH; [congruence|].
    destruct (own "jcr:primaryType" props) as [primaryType|]; simpl; [|exact IH].
    destruct (truthy_value primaryType); [|exact IH].
    match goal with |- context [(?a >=? ?b)%Z] => destruct (Z.geb_spec a b) as [Hge|Hlt] end;
      [|lia].
    eexists. split; [reflexivity|]. simpl. rewrite firstn_0. reflexivity.
Qed.

Lemma listPages_loop_below_one path limit entries :
  no_null_child entries ->
  (limit < 1)%Z ->
  exists rows,
    listPages_loop path limit entries [] = inr rows /\
    map Page.name rows = firstn 1 (map fst (List.filter object_child entries)).
Proof.
  intros Hnull Hlimit. induction entries as [|[key value] rest IH].
  - exists []. auto.
  - apply Forall_cons in Hnull as [Hv Hnull]. unfold reserved in Hv. simpl in Hv.
    specialize (IH Hnull).
    simpl. unfold object_child at 1, reserved. simpl.
    destruct (skip_key key) eqn:Hs; simpl; [exact IH|].
    specialize (Hv eq_refl).
    destruct value as [|b|n|s|items|props]; simpl; try exact IH; [congruence| |].
    all: match goal with |- context [(?a >=? ?b)%Z] => destruct (Z.geb_spec a b) as [Hge|Hlt] end;
      [|lia].
    all: eexists; split; [reflexivity|]; simpl; rewrite firstn_0; reflexivity.
Qed.

(** X13.  A limit below one acts as a limit of one: for a document without
    a [null] child and a limit of zero or less, the asset listing returns
    the row of the first child that is an object with a non-empty
    [jcr:primaryType], the page listing the row of the first child that is
    an object or an array, and each returns no row only when there is no
    such child. *)
Theorem limit_below_one_is_one
    (config : gmap string string) (net : client -> request -> outcome)
    (c : client) (path : string) (N : Z) (props : list (string * json)) :
  getClient config = inr c ->
  (N < 1)%Z ->
  no_null_child props ->
  (net c (GET (path ++ ".infinity.json")) = Resolved (JObj props) ->
   exists rows,
     listAssets config net (Some path) (Some N)
       = ([(c, GET (path ++ ".infinity.json"))], inr rows) /\
     map Asset.name rows = firstn 1 (map fst (List.filter asset_child props))) /\
  (net c (GET (path ++ ".1.json")) = Resolved (JObj props) ->
   exists rows,
     listPages config net (Some path) (Some N) = ([(c, GET (path ++ ".1.json"))], inr rows) /\
     map Page.name rows = firstn 1 (map fst (List.filter object_child props))).
Proof.
  intros Hc HN Hnull. split; intros Hn.
  - destruct (listAssets_loop_below_one path N props Hnull HN) as (rows & Hl & Hnames).
    exists rows. split; [eapply listAssets_run; eassumption|exact Hnames].
  - destruct (listPages_loop_below_one path N props Hnull HN) as (rows & Hl & Hnames).
    exists rows. split; [eapply listPages_run; eassumption|exact Hnames].
Qed.

(** A negative limit on the folder of mixed children. *)
Lemma limit_below_one_is_one_witness :
  getClient admin_config = inr admin_client /\
  (-3 < 1)%Z /\
  no_null_child mixed_folder /\
  (exists rows,
     snd (listAssets admin_config (answer (JObj mixed_folder)) (Some "/content/dam") (Some (-3)%Z))
       = inr rows /\
     map Asset.name rows = ["a"]) /\
  (exists rows,
     snd (listPages admin_config (answer (JObj mixed_folder)) (Some "/content/dam") (Some (-3)%Z))
       = inr rows /\
     map Page.name rows = ["list"]).
Proof.
  assert (Hc : getClient admin_config = inr admin_client) by reflexivity.
  assert (HN : (-3 < 1)%Z) by lia.
  assert (Hnull : no_null_child mixed_folder)
    by (repeat constructor; intros _; discriminate).
  split; [exact Hc|]. split; [exact HN|]. split; [exact Hnull|].
  destruct (limit_below_one_is_one admin_config (answer (JObj mixed_folder)) admin_client
              "/content/dam" (-3)%Z mixed_folder Hc HN Hnull) as (Hassets & Hpages).
  split.
  - destruct (Hassets eq_refl) as (rows & Hrun & Hnames).
    exists rows. rewrite Hrun. split; [reflexivity|exact Hnames].
  - destruct (Hpages eq_refl) as (rows & Hrun & Hnames).
    exists rows. rewrite Hrun. split; [reflexivity|exact Hnames].
Defined.

(** Entries none of whose values has type [object] add no row. *)

Lemma listAssets_loop_no_object path limit entries : forall assets,
  Forall (fun kv => typeof_object (snd kv) = false) entries ->
  listAssets_loop path limit entries assets = inr assets.
Proof.
  induction entries as [|[key value] rest IH]; intros assets H; [reflexivity|].
  apply Forall_cons in H as [Hv H]. simpl in Hv. simpl. rewrite Hv.
  destruct (skip_key key); apply IH; exact H.
Qed.

Lemma listPages_loop_no_object path limit entries : forall pages,
  Forall (fun kv => typeof_object (snd kv) = false) entries ->
  listPages_loop path limit entries pages = inr pages.
Proof.
  induction entries as [|[key value] rest IH]; intros pages H; [reflexivity|].
  apply Forall_cons in H as [Hv H]. simpl in Hv. simpl. rewrite Hv.
  destruct (skip_key key); apply IH; exact H.
Qed.

Lemma listTags_loop_no_object namespace entries : forall tags,
  Forall (fun kv => typeof_object (snd kv) = false) entries ->
  listTags_loop namespace entries tags = inr tags.
Proof.
  induction entries as [|[key value] rest IH]; intros tags H; [reflexivity|].
  apply Forall_cons in H as [Hv H]. simpl in Hv. simpl. rewrite Hv.
  destruct (skip_key key); apply IH; exact H.
Qed.

Lemma Forall_indexed (P : json -> Prop) (items : list json) :
  Forall P items ->
  forall g : nat -> string, Forall (fun kv => P (snd kv)) (imap (fun i v => (g i, v)) items).
Proof.
  induction 1 as [|x l Hx Hl IH]; intros g; simpl; constructor; [exact Hx|].
  apply (IH (fun i => g (S i))).
Qed.

Lemma chars_no_object (s : string) : Forall (fun v => typeof_object v = false) (chars s).
Proof. unfold chars. apply Forall_map. apply Forall_forall. intros c _. reflexivity. Qed.

Lemma primitive_entries_no_object (data : json) :
  primitive_body data = true ->
  exists entries,
    Object_entries data = inr entries /\
    Forall (fun kv => typeof_object (snd kv) = false) entries.
Proof.
  destruct data as [|b|n|s|items|props]; try discriminate; intros _; simpl;
    eexists; (split; [reflexivity|]); try constructor.
  unfold indexed.
  apply (Forall_indexed (fun v => typeof_object v = false)), chars_no_object.
Qed.

(** X14.  A body that is not JSON structure: when the server answers a
    listing request with a string (text that did not parse as JSON), a
    number or a boolean, each of the three listings succeeds with no rows
    instead of failing. *)
Theorem primitive_body_lists_nothing
    (config : gmap string string) (net : client -> request -> outcome)
    (c : client) (path : string) (limit : option Z) (data : json) :
  getClient config = inr c ->
  primitive_body data = true ->
  (net c (GET (path ++ ".infinity.json")) = Resolved data ->
   listAssets config net (Some path) limit = ([(c, GET (path ++ ".infinity.json"))], inr [])) /\
  (net c (GET (path ++ ".1.json")) = Resolved data ->
   listPages config net (Some path) limit = ([(c, GET (path ++ ".1.json"))], inr []) /\
   listTags config net (Some path) = ([(c, GET (path ++ ".1.json"))], inr [])).
Proof.
  intros Hc Hdata.
  destruct (primitive_entries_no_object data Hdata) as (entries & He & Hno).
  split; [|split]; intros;
    unfold listAssets, listPages, listTags; simpl; rewrite Hc; simpl; unfold send;
    match goal with H : net _ _ = _ |- _ => rewrite H end; simpl; rewrite He.
  - rewrite listAssets_loop_no_object by exact Hno. reflexivity.
  - rewrite listPages_loop_no_object by exact Hno. reflexivity.
  - rewrite listTags_loop_no_object by exact Hno. reflexivity.
Qed.

(** An HTML error page as the body of a tag listing. *)
Lemma primitive_body_lists_nothing_witness :
  getClient admin_config = inr admin_client /\
  primitive_body (JStr "<html>Login</html>") = true /\
  listTags admin_config (answer (JStr "<html>Login</html>")) (Some "/content/cq:tags")
    = ([(admin_client, GET ("/content/cq:tags" ++ ".1.json"))], inr []).
Proof.
  assert (Hc : getClient admin_config = inr admin_client) by reflexivity.
  assert (Hd : primitive_body (JStr "<html>Login</html>") = true) by reflexivity.
  split; [exact Hc|]. split; [exact Hd|].
  destruct (primitive_body_lists_nothing admin_config (answer (JStr "<html>Login</html>"))
              admin_client "/content/cq:tags" None (JStr "<html>Login</html>") Hc Hd)
    as (_ & Hpages).
  apply Hpages. reflexivity.
Defined.

(** X15.  A [null] body: each of the three listings is rejected with the
    engine's [TypeError] (from [Object.entries(null)]), which
    [handleApiError] throws again unchanged, whereas [getAsset] and
    [getPage] succeed and return an object that has the [path] property
    only. *)
Theorem null_body
    (config : gmap string string) (net : client -> request -> outcome)
    (c : client) (path : string) (limit : option Z) :
  getClient config = inr c ->
  (net c (GET (path ++ ".infinity.json")) = Resolved JNull ->
   listAssets config net (Some path) limit
     = ([(c, GET (path ++ ".infinity.json"))], inl TypeError) /\
   getAsset config net path
     = ([(c, GET (path ++ ".infinity.json"))], inr [("path", JStr path)]) /\
   getPage config net path
     = ([(c, GET (path ++ ".infinity.json"))], inr [("path", JStr path)])) /\
  (net c (GET (path ++ ".1.json")) = Resolved JNull ->
   listPages config net (Some path) limit = ([(c, GET (path ++ ".1.json"))], inl TypeError) /\
   listTags config net (Some path) = ([(c, GET (path ++ ".1.json"))], inl TypeError)).
Proof.
  intros Hc.
  split; intros Hn; repeat split;
    unfold listAssets, getAsset, getPage, listPages, listTags; simpl; rewrite Hc; simpl;
    unfold send; rewrite Hn; reflexivity.
Qed.

(** A [null] body for a page. *)
Lemma null_body_witness :
  getClient admin_config = inr admin_client /\
  getPage admin_config (answer JNull) "/content/site"
    = ([(admin_client, GET ("/content/site" ++ ".infinity.json"))],
       inr [("path", JStr "/content/site")]) /\
  listPages admin_config (answer JNull) (Some "/content/site") None
    = ([(admin_client, GET ("/content/site" ++ ".1.json"))], inl TypeError).
Proof.
  assert (Hc : getClient admin_config = inr admin_client) by reflexivity.
  split; [exact Hc|].
  destruct (null_body admin_config (answer JNull) admin_client "/content/site" None Hc)
    as (Hinf & Hone).
  split; [apply Hinf; reflexivity|apply Hone; reflexivity].
Defined.

(** ** What a row's fields hold *)

Lemma js_or_truthy (a : option json) (b : json) :
  truthy_value b = true -> truthy_value (js_or a b) = true.
Proof.
  intros Hb. destruct a as [v|]; simpl; [|exact Hb].
  destruct (truthy_value v) eqn:Hv; [exact Hv|exact Hb].
Qed.

Lemma truthy_name (key : string) : key <> EmptyString -> truthy_value (JStr key) = true.
Proof. intros H. simpl. destruct (String.eqb_spec key EmptyString); [contradiction|reflexivity]. Qed.

Lemma listAssets_loop_filled path limit entries : forall assets rows,
  Forall asset_row_filled assets ->
  listAssets_loop path limit entries assets = inr rows ->
  Forall asset_row_filled rows.
Proof.
  induction entries as [|[key value] rest IH]; intros assets rows Hacc Hrun; simpl in Hrun.
  - injection Hrun as <-. exact Hacc.
  - destruct (skip_key key); [eapply IH; eassumption|].
    destruct (typeof_object value); [|eapply IH; eassumption].
    destruct (get value "jcr:primaryType") as [e|[primaryType|]];
      [discriminate| |eapply IH; eassumption].
    destruct (truthy_value primaryType) eqn:Ht; [|eapply IH; eassumption].
    match type of Hrun with
    | context [(assets ++ [?r])%list] =>
        assert (Hrow : Forall asset_row_filled (assets ++ [r])%list)
    end.
    { apply Forall_app. split; [exact Hacc|]. constructor; [|constructor].
      unfold asset_row_filled. simpl. repeat split; try exact Ht;
        try (apply js_or_truthy; reflexivity).
      intros Hk. apply js_or_truthy, truthy_name, Hk. }
    match type of Hrun with context [(?a >=? ?b)%Z] => destruct (a >=? b)%Z end.
    + injection Hrun as <-. exact Hrow.
    + eapply IH; [exact Hrow|exact Hrun].
Qed.

Lemma listPages_loop_filled path limit entries : forall pages rows,
  Forall page_row_filled pages ->
  listPages_loop path limit entries pages = inr rows ->
  Forall page_row_filled rows.
Proof.
  induction entries as [|[key value] rest IH]; intros pages rows Hacc Hrun; simpl in Hrun.
  - injection Hrun as <-. exact Hacc.
  - destruct (skip_key key); [eapply IH; eassumption|].
    destruct (typeof_object value); [|eapply IH; eassumption].
    destruct (get value "jcr:content") as [e|content]; [discriminate|].
    match type of Hrun with
    | context [(pages ++ [?r])%list] =>
        assert (Hrow : Forall page_row_filled (pages ++ [r])%list)
    end.
    { apply Forall_app. split; [exact Hacc|]. constructor; [|constructor].
      unfold page_row_filled. simpl. repeat split;
        try (apply js_or_truthy; reflexivity).
      intros Hk. apply js_or_truthy, truthy_name, Hk. }
    match type of Hrun with context [(?a >=? ?b)%Z] => destruct (a >=? b)%Z end.
    + injection Hrun as <-. exact Hrow.
    + eapply IH; [exact Hrow|exact Hrun].
Qed.

Lemma listTags_loop_filled namespace entries : forall tags rows,
  Forall tag_row_filled tags ->
  listTags_loop namespace entries tags = inr rows ->
  Forall tag_row_filled rows.
Proof.
  induction entries as [|[key value] rest IH]; intros tags rows Hacc Hrun; simpl in Hrun.
  - injection Hrun as <-. exact Hacc.
  - destruct (skip_key key); [eapply IH; eassumption|].
    destruct (typeof_object value); [|eapply IH; eassumption].
    destruct (get value "jcr:title") as [e|title]; [discriminate|].
    eapply IH; [|exact Hrun].
    apply Forall_app. split; [exact Hacc|]. constructor; [|constructor].
    unfold tag_row_filled. simpl. repeat split.
    + apply js_or_truthy. reflexivity.
    + destruct (member value "cq:count") as [n|]; simpl; [|right; reflexivity].
      destruct (truthy_value n) eqn:Hn; [left; exact Hn|right; reflexivity].
    + intros Hk. apply js_or_truthy, truthy_name, Hk.
Qed.

(** X16.  The rows of a listing have no blank field: in every row that
    listing assets returns, [type], [mimeType] and [lastModified] are
    truthy (the document's value, or "N/A"); in every page row [template]
    and [lastModified] are; in every tag row [description] is and [count]
    is truthy or the number 0; and [title] is truthy in each of them
    unless the row's name is the empty key. *)
Theorem rows_are_filled
    (config : gmap string string) (net : client -> request -> outcome) :
  (forall path limit sent rows,
     listAssets config net path limit = (sent, inr rows) -> Forall asset_row_filled rows) /\
  (forall path limit sent rows,
     listPages config net path limit = (sent, inr rows) -> Forall page_row_filled rows) /\
  (forall namespace sent rows,
     listTags config net namespace = (sent, inr rows) -> Forall tag_row_filled rows).
Proof.
  repeat split.
  - intros path limit sent rows Hrun.
    apply listAssets_inv in Hrun as (c & data & entries & _ & _ & _ & Hl).
    eapply listAssets_loop_filled; [constructor|exact Hl].
  - intros path limit sent rows Hrun.
    apply listPages_inv in Hrun as (c & data & entries & _ & _ & _ & Hl).
    eapply listPages_loop_filled; [constructor|exact Hl].
  - intros namespace sent rows Hrun.
    apply listTags_inv in Hrun as (c & data & entries & _ & _ & _ & Hl).
    eapply listTags_loop_filled; [constructor|exact Hl].
Qed.

(** The rows of the folder of mixed children, listed as tags. *)
Lemma rows_are_filled_witness :
  exists sent rows,
    listTags admin_config (answer (JObj mixed_folder)) None = (sent, inr rows) /\
    length rows = 4%nat /\
    Forall tag_row_filled rows.
Proof.
  eexists. eexists.
  assert (H : listTags admin_config (answer (JObj mixed_folder)) None
              = (_, inr _)) by reflexivity.
  split; [exact H|]. split; [reflexivity|].
  exact (proj2 (proj2 (rows_are_filled admin_config (answer (JObj mixed_folder)))) None _ _ H).
Defined.

(** * Tables *)






Section TableProperties.

Variable R : Type.
Variable field : R -> string -> option json.
Variable dim : string -> text.
Variable data : list R.





End TableProperties.


(** * The [tags] commands *)

Section CommandProperties.

Variable config : gmap string string.
Variable net : client -> request -> outcome.
Variable TypeError_message : string.
Variable JSON_pretty : list Tag.t -> string.
Variable dim : string -> text.

Lemma not_exit_printed (code : Z) (l : list output) : ~ In (Exit code) (map Printed l).
Proof. rewrite in_map_iff. intros (o & H & _). discriminate. Qed.

Lemma not_exit_spinner {A} (code : Z) (message : string) (fn : M A) :
  ~ In (Exit code) (fst (withSpinner message fn)).
Proof.
  unfold withSpinner. simpl. intros [H|H]; [discriminate|].
  apply in_app_iff in H as [H|[H|[]]]; [|discriminate].
  apply in_map_iff in H as (cr & H & _). discriminate.
Qed.

Lemma exit_command_failed (code : Z) (error : exn) :
  In (Exit code) (command_failed TypeError_message error) <-> code = 1%Z.
Proof.
  unfold command_failed. rewrite in_app_iff. split.
  - intros [H|[H|[]]]; [destruct (not_exit_printed _ _ H)|congruence].
  - intros ->. right. left. reflexivity.
Qed.

Lemma exit_refusal (code : Z) : In (Exit code) requireAuth_refusal <-> code = 1%Z.
Proof.
  unfold requireAuth_refusal. rewrite in_app_iff. split.
  - intros [H|[H|[]]]; [destruct (not_exit_printed _ _ H)|congruence].
  - intros ->. right. left. reflexivity.
Qed.

(** X18.  [tags list] and [tags delete] end the process with
    [process.exit] exactly when the store is not configured or the
    operation is rejected, and then with status 1; otherwise they run to
    their end. *)
Theorem commands_exit_on_failure (code : Z) :
  (forall namespace json_flag,
     In (Exit code) (tags_list config net TypeError_message JSON_pretty dim namespace json_flag)
     <-> code = 1%Z /\
         (isConfigured config = false \/
          exists e, snd (listTags config net (Some namespace)) = inl e)) /\
  (forall tagPath,
     In (Exit code) (tags_delete config net TypeError_message tagPath)
     <-> code = 1%Z /\
         (isConfigured config = false \/
          exists e, snd (deleteTag config net tagPath) = inl e)).
Proof.
  split.
  - intros namespace json_flag. unfold tags_list.
    destruct (isConfigured config) eqn:Hconf.
    + pose proof (not_exit_spinner code "Fetching tags..." (listTags config net (Some namespace)))
        as Hspin.
      unfold withSpinner in *. cbn [fst snd] in *.
      destruct (snd (listTags config net (Some namespace))) as [e|tags];
        [|destruct json_flag]; rewrite in_app_iff.
      * rewrite exit_command_failed. split.
        -- intros [H|H]; [contradiction|]. split; [exact H|]. right. eauto.
        -- intros [-> _]. right. reflexivity.
      * split.
        -- intros [H|[H|[]]]; [contradiction|discriminate].
        -- intros (_ & [H|(e & H)]); discriminate.
      * split.
        -- intros [H|H]; [contradiction|destruct (not_exit_printed _ _ H)].
        -- intros (_ & [H|(e & H)]); discriminate.
    + rewrite exit_refusal. split; [intros ->; auto|intros [-> _]; reflexivity].
  - intros tagPath. unfold tags_delete.
    destruct (isConfigured config) eqn:Hconf.
    + pose proof (not_exit_spinner code "Deleting tag..." (deleteTag config net tagPath))
        as Hspin.
      unfold withSpinner in *. cbn [fst snd] in *.
      destruct (snd (deleteTag config net tagPath)) as [e|u]; rewrite in_app_iff.
      * rewrite exit_command_failed. split.
        -- intros [H|H]; [contradiction|]. split; [exact H|]. right. eauto.
        -- intros [-> _]. right. reflexivity.
      * split.
        -- intros [H|H]; [contradiction|destruct (not_exit_printed _ _ H)].
        -- intros (_ & [H|(e & H)]); discriminate.
    + rewrite exit_refusal. split; [intros ->; auto|intros [-> _]; reflexivity].
Qed.

(** X19.  [tags delete <path>] with a configured store: the spinner
    starts, exactly one request is sent, the DELETE of the path as given,
    and the spinner stops; when the server accepts the request the command
    prints "Tag deleted successfully" and nothing else, and when the server
    rejects it the command prints the message of the mapped error and
    exits with status 1. *)
Theorem tags_delete_runs (c : client) (tagPath : string) :
  getClient config = inr c ->
  let request := DELETE tagPath FORM_HEADERS in
  let before := [SpinnerStart "Deleting tag..."; Requested c request; SpinnerStop] in
  (forall data,
     net c request = Resolved data ->
     tags_delete config net TypeError_message tagPath
       = (before ++ map Printed (printSuccess "Tag deleted successfully"))%list) /\
  (forall error,
     net c request = Rejected error ->
     tags_delete config net TypeError_message tagPath
       = (before
          ++ map Printed (printError (exn_message TypeError_message (handleApiError config error)))
          ++ [Exit 1%Z])%list).
Proof.
  intros Hc request before. subst request before.
  assert (Hconf : isConfigured config = true).
  { destruct (isConfigured config) eqn:H; [reflexivity|].
    rewrite getClient_not_configured in Hc by exact H. discriminate. }
  split; intros x Hn; unfold tags_delete, withSpinner, deleteTag, command_failed;
    rewrite Hconf, Hc; simpl; unfold send; unfold FORM_HEADERS in Hn; rewrite Hn; reflexivity.
Qed.

(** X20.  A listing that silently comes out empty: when the store is
    configured and the server answers the request of [tags list] with a
    string, a number or a boolean (for instance an HTML page), the command
    prints "No results found." after its one request and does not fail. *)
Theorem tags_list_of_primitive_body (c : client) (namespace : string) (data : json) :
  getClient config = inr c ->
  primitive_body data = true ->
  net c (GET (namespace ++ ".1.json")) = Resolved data ->
  tags_list config net TypeError_message JSON_pretty dim namespace false
    = [ SpinnerStart "Fetching tags...";
        Requested c (GET (namespace ++ ".1.json"));
        SpinnerStop;
        Printed (console_log [Chalk yellow (Plain "No results found.")]) ].
Proof.
  intros Hc Hdata Hn.
  assert (Hconf : isConfigured config = true).
  { destruct (isConfigured config) eqn:H; [reflexivity|].
    rewrite getClient_not_configured in Hc by exact H. discriminate. }
  destruct (primitive_entries_no_object data Hdata) as (entries & He & Hno).
  unfold tags_list, withSpinner, listTags. rewrite Hconf, Hc. simpl. unfold send.
  rewrite Hn. simpl. rewrite He, listTags_loop_no_object by exact Hno. reflexivity.
Qed.

End CommandProperties.

(** Deleting the tag [/content/cq:tags/x] on an instance that accepts. *)
Lemma tags_delete_runs_witness :
  getClient admin_config = inr admin_client /\
  tags_delete admin_config (answer JNull) "Cannot read properties of null" "/content/cq:tags/x"
    = [ SpinnerStart "Deleting tag...";
        Requested admin_client (DELETE "/content/cq:tags/x" FORM_HEADERS);
        SpinnerStop;
        Printed (console_log
                   [Append (Chalk green (Plain "✓")) (Plain " Tag deleted successfully")]) ].
Proof.
  assert (Hc : getClient admin_config = inr admin_client) by reflexivity.
  split; [exact Hc|].
  destruct (tags_delete_runs admin_config (answer JNull) "Cannot read properties of null"
              admin_client "/content/cq:tags/x" Hc) as (Hok & _).
  apply (Hok JNull). reflexivity.
Defined.

(** [tags list] against an instance that answers with a login page. *)
Lemma tags_list_of_primitive_body_witness :
  getClient admin_config = inr admin_client /\
  primitive_body (JStr "<html>Login</html>") = true /\
  tags_list admin_config (answer (JStr "<html>Login</html>")) "Cannot read properties of null"
      (fun _ => "[]") no_style "/content/cq:tags" false
    = [ SpinnerStart "Fetching tags...";
        Requested admin_client (GET ("/content/cq:tags" ++ ".1.json"));
        SpinnerStop;
        Printed (console_log [Chalk yellow (Plain "No results found.")]) ].
Proof.
  assert (Hc : getClient admin_config = inr admin_client) by reflexivity.
  assert (Hd : primitive_body (JStr "<html>Login</html>") = true) by reflexivity.
  split; [exact Hc|]. split; [exact Hd|].
  apply (tags_list_of_primitive_body admin_config (answer (JStr "<html>Login</html>"))
           "Cannot read properties of null" (fun _ => "[]") no_style admin_client
           "/content/cq:tags" (JStr "<html>Login</html>") Hc Hd).
  reflexivity.
Defined.
